(** * istanbul-lib-hook: a shallow embedding of [lib/hook.js]

    The module patches three entry points of the Node.js runtime (the module
    loader, [vm.createScript] and [vm.runInThisContext]) so that source text
    goes through a user-supplied transformer before it is compiled.

    JavaScript values are an inductive type, user callbacks are functions on
    a caller-owned state that may return or throw, and the module's own
    mutable variables live in a record threaded through a state-and-exception
    monad.  Closures that the source stores in mutable slots are represented
    by their captured environment and interpreted by an [apply] function. *)

From Stdlib Require Import String List ZArith Bool DecimalString Lia.
Import ListNotations.
Open Scope string_scope.

(** ** JavaScript values *)

(** The values that flow through the hooks: source text, file names, option
    flags, results of the user callbacks and thrown values.  [VNumber n] is
    the integer-valued number [n]; [VError] is an instance of [Error] (or of
    a subclass such as [TypeError]) whose [message] and [stack] are strings.
    Other objects, fractions, [NaN] and the infinities are not represented. *)
Inductive value : Type :=
| VUndefined
| VNull
| VBool (b : bool)
| VNumber (n : Z)
| VString (s : string)
| VError (name message stack : string).

(** ToBoolean. *)
Definition truthy (v : value) : bool :=
  match v with
  | VUndefined | VNull => false
  | VBool b => b
  | VNumber n => negb (Z.eqb n 0)
  | VString s => negb (String.eqb s "")
  | VError _ _ _ => true
  end.

(** [String(v)], also the conversion applied by [+] with a string operand.
    For a number the digits are those of [Number::toString] as long as the
    integer is a safe one (magnitude below [2^53]). *)
Definition ToString (v : value) : string :=
  match v with
  | VUndefined => "undefined"
  | VNull => "null"
  | VBool true => "true"
  | VBool false => "false"
  | VNumber n => NilZero.string_of_int (Z.to_int n)
  | VString s => s
  | VError name message _ =>
      if String.eqb name "" then message
      else if String.eqb message "" then name
      else name ++ ": " ++ message
  end.

(** [typeof v === 'string'] *)
Definition is_string (v : value) : bool :=
  match v with VString _ => true | _ => false end.

(** Normal or abrupt completion of a JavaScript call. *)
Inductive completion (A : Type) : Type :=
| Normal (a : A)
| Throw (ex : value).
Arguments Normal {A} a.
Arguments Throw {A} ex.

(** ** The host: Node.js built-ins and the caller's own state *)

Class Host : Type := {
  (** state owned by the caller's callbacks (caches, counters, files) *)
  U : Type;
  (** [path.resolve] *)
  path_resolve : string -> string;
  (** [path.extname] *)
  path_extname : string -> string;
  (** [nodeModulesRegex.test], the filter behind pirates' [ignoreNodeModules] *)
  nodeModulesRegex_test : string -> bool;
  (** the stack text the engine captures for an error it raises itself *)
  captureStackTrace : string -> string -> string;
  (** the pristine [vm.createScript] *)
  native_createScript : value -> value -> U -> completion value * U;
  (** the pristine [vm.runInThisContext] *)
  native_runInThisContext : value -> value -> U -> completion value * U;
  (** the loader's own [module._compile] *)
  native_compile : value -> string -> U -> completion value * U
}.

Section Model.
Context {host : Host}.

(** A function supplied by the caller, called with an argument list.  It
    acts on the caller's own state; a callback that calls back into this
    module or into [require] is not represented. *)
Definition jsfun : Type := list value -> U -> completion value * U.

(** An argument in function position: a function, or any other value. *)
Inductive arg : Type :=
| Fn (f : jsfun)
| Val (v : value).

Definition arg_truthy (a : arg) : bool :=
  match a with Fn _ => true | Val v => truthy v end.

(** [typeof a === 'function'] *)
Definition is_function (a : arg) : bool :=
  match a with Fn _ => true | Val _ => false end.

(** What happened, in order: the error stream and the calls made. *)
Inductive event : Type :=
| ConsoleError (args : list value)
| CallMatcher (args : list value)
| CallTransformer (args : list value)
| CallPostLoadHook (args : list value)
| CallOriginalCreateScript (code file : value)
| CallOriginalRunInThisContext (code file : value)
| CallRevert (handle : nat)
| Compile (code : value) (filename : string).

(** [{ code: ..., changed: ... }] *)
Record transformResult : Type := { code : value; changed : bool }.

(** The options object of the three install functions. *)
Record options : Type := {
  verbose : value;
  postLoadHook : arg;
  extensions : option (list string)
}.

(** [options || {}] *)
Definition default_options : options :=
  {| verbose := VUndefined; postLoadHook := Val VUndefined; extensions := None |}.

Definition options_or_empty (o : option options) : options :=
  match o with Some o' => o' | None => default_options end.

(** The value held by [vm.createScript] / [vm.runInThisContext]: the function
    captured at module load, or the closure built by the install function
    with the variables it captures. *)
Inductive entry : Type :=
| Original
| Replacement (matcher transformer : arg) (verbose : value).

(** One call of [pirates.addHook]: the callback of [hookRequire] with what it
    captures ([fn] is [transformFn(transformer, verbose)]), the options handed
    to pirates, and pirates' own [reverted] flag. *)
Record pirates_hook : Type := {
  ph_transformer : arg;
  ph_verbose : value;
  ph_postLoadHook : option jsfun;
  ph_exts : list string;
  ph_matcher : arg;
  ph_reverted : bool
}.

(** The module object of a cached module; only its identity matters here. *)
Definition module_ : Type := value.

(** The binding of [require] seen by the module. *)
Inductive require_env : Type :=
| RequireUndefined
| RequireFalsy
| RequireFn (cache : option (list (string * module_))).

Record state : Type := {
  vm_createScript : entry;
  vm_runInThisContext : entry;
  reverts : list nat;
  pirates_hooks : list pirates_hook;
  require_ : require_env;
  user : U;
  trace : list event
}.

Definition set_vm_createScript (e : entry) (s : state) : state :=
  {| vm_createScript := e; vm_runInThisContext := vm_runInThisContext s;
     reverts := reverts s; pirates_hooks := pirates_hooks s;
     require_ := require_ s; user := user s; trace := trace s |}.

Definition set_vm_runInThisContext (e : entry) (s : state) : state :=
  {| vm_createScript := vm_createScript s; vm_runInThisContext := e;
     reverts := reverts s; pirates_hooks := pirates_hooks s;
     require_ := require_ s; user := user s; trace := trace s |}.

Definition set_reverts (r : list nat) (s : state) : state :=
  {| vm_createScript := vm_createScript s;
     vm_runInThisContext := vm_runInThisContext s;
     reverts := r; pirates_hooks := pirates_hooks s;
     require_ := require_ s; user := user s; trace := trace s |}.

Definition set_pirates_hooks (h : list pirates_hook) (s : state) : state :=
  {| vm_createScript := vm_createScript s;
     vm_runInThisContext := vm_runInThisContext s;
     reverts := reverts s; pirates_hooks := h;
     require_ := require_ s; user := user s; trace := trace s |}.

Definition set_require (r : require_env) (s : state) : state :=
  {| vm_createScript := vm_createScript s;
     vm_runInThisContext := vm_runInThisContext s;
     reverts := reverts s; pirates_hooks := pirates_hooks s;
     require_ := r; user := user s; trace := trace s |}.

Definition set_user (u : U) (s : state) : state :=
  {| vm_createScript := vm_createScript s;
     vm_runInThisContext := vm_runInThisContext s;
     reverts := reverts s; pirates_hooks := pirates_hooks s;
     require_ := require_ s; user := u; trace := trace s |}.

Definition emit (e : event) (s : state) : state :=
  {| vm_createScript := vm_createScript s;
     vm_runInThisContext := vm_runInThisContext s;
     reverts := reverts s; pirates_hooks := pirates_hooks s;
     require_ := require_ s; user := user s; trace := trace s ++ [e] |}.

(** The state right after [lib/hook.js] has been loaded: both entry points
    hold the functions just captured, and no revert handle is recorded. *)
Definition module_loaded (r : require_env) (u : U) : state :=
  {| vm_createScript := Original; vm_runInThisContext := Original;
     reverts := []; pirates_hooks := []; require_ := r;
     user := u; trace := [] |}.

(** ** The monad of JavaScript procedures *)

Definition M (A : Type) : Type := state -> completion A * state.

Definition ret {A} (a : A) : M A := fun s => (Normal a, s).

Definition bind {A B} (m : M A) (k : A -> M B) : M B :=
  fun s =>
    match m s with
    | (Normal a, s') => k a s'
    | (Throw ex, s') => (Throw ex, s')
    end.

Definition throw {A} (ex : value) : M A := fun s => (Throw ex, s).

(** [try { body } catch (ex) { handler }] *)
Definition try_catch {A} (body : M A) (handler : value -> M A) : M A :=
  fun s =>
    match body s with
    | (Normal a, s') => (Normal a, s')
    | (Throw ex, s') => handler ex s'
    end.

Definition get : M state := fun s => (Normal s, s).
Definition modify (f : state -> state) : M unit := fun s => (Normal tt, f s).
Definition log (e : event) : M unit := modify (emit e).

Notation "x <- m ;; k" := (bind m (fun x => k))
  (at level 61, m at next level, right associativity).
Notation "m ;; k" := (bind m (fun _ => k))
  (at level 61, right associativity).

(** [xs.forEach(f)] *)
Fixpoint forEach {A} (xs : list A) (f : A -> M unit) : M unit :=
  match xs with
  | [] => ret tt
  | x :: rest => f x ;; forEach rest f
  end.

(** An error raised by the engine itself. *)
Definition TypeError (message : string) : value :=
  VError "TypeError" message (captureStackTrace "TypeError" message).

(** Run a caller-supplied function on the caller's state. *)
Definition run_user (f : jsfun) (args : list value) : M value :=
  fun s => let (r, u) := f args (user s) in (r, set_user u s).

(** [callee(args)] where the variable [callee] may turn out not to hold a
    function; the error names the callee as it is written in the source. *)
Definition call (callee : string) (f : arg) (args : list value) : M value :=
  match f with
  | Fn g => run_user g args
  | Val _ => throw (TypeError (callee ++ " is not a function"))
  end.

(** [ex.p] for the property names read by the module ([message], [stack]);
    reading a property of [undefined] or [null] raises a [TypeError]. *)
Definition get_prop (ex : value) (p : string) : M value :=
  match ex with
  | VUndefined | VNull =>
      throw (TypeError ("Cannot read property '" ++ p ++ "' of " ++ ToString ex))
  | VError _ message stack =>
      if String.eqb p "message" then ret (VString message)
      else if String.eqb p "stack" then ret (VString stack)
      else ret VUndefined
  | _ => ret VUndefined
  end.

Definition console_error (args : list value) : M unit := log (ConsoleError args).

(** [matcher(args)]; the trace records the call when one is made. *)
Definition call_matcher (matcher : arg) (args : list value) : M value :=
  match matcher with
  | Fn _ => log (CallMatcher args)
  | Val _ => ret tt
  end ;;
  call "matcher" matcher args.

(** [transformer(args)]; the trace records the call when one is made. *)
Definition call_transformer (transformer : arg) (args : list value) : M value :=
  match transformer with
  | Fn _ => log (CallTransformer args)
  | Val _ => ret tt
  end ;;
  call "transformer" transformer args.

Definition call_postLoadHook (f : jsfun) (args : list value) : M value :=
  log (CallPostLoadHook args) ;; run_user f args.

(** ** [lib/hook.js] *)

Definition originalCreateScript (c file : value) : M value :=
  log (CallOriginalCreateScript c file) ;;
  fun s => let (r, u) := native_createScript c file (user s) in (r, set_user u s).

Definition originalRunInThisContext (c file : value) : M value :=
  log (CallOriginalRunInThisContext c file) ;;
  fun s => let (r, u) := native_runInThisContext c file (user s) in (r, set_user u s).

(** lines 12-14 *)
Definition shouldHook (matcher : arg) (filename : value) : M value :=
  match filename with
  | VString f =>
      call_matcher matcher [VString (path_resolve f)]
  | _ => ret (VBool false)
  end.

(** lines 16-36: the function returned by [transformFn(transformer, verbose)],
    applied to [(code, filename)]. *)
Definition transformFn (transformer : arg) (verbose : value)
    (c filename : value) : M transformResult :=
  (if truthy verbose
   then console_error
          [VString ("Module load hook: transform [" ++ ToString filename ++ "]")]
   else ret tt) ;;
  try_catch
    (transformed <- call_transformer transformer [c; filename] ;;
     ret {| code := transformed; changed := true |})
    (fun ex =>
       console_error [VString "Transformation error for"; filename;
                      VString "; return original code"] ;;
       message <- get_prop ex "message" ;;
       console_error [if truthy message then message else VString (ToString ex)] ;;
       stack <- get_prop ex "stack" ;;
       console_error [stack] ;;
       ret {| code := c; changed := false |}).

(** lines 38-47 *)
Definition cache_delete (filename : string) (cache : list (string * module_))
    : list (string * module_) :=
  filter (fun e => negb (String.eqb (fst e) filename)) cache.

(** [delete require.cache[filename]] *)
Definition delete_require_cache (filename : string) : M unit :=
  modify (fun s =>
    match require_ s with
    | RequireFn (Some cache) =>
        set_require (RequireFn (Some (cache_delete filename cache))) s
    | _ => s
    end).

Definition unloadRequireCache (matcher : arg) : M unit :=
  s <- get ;;
  if arg_truthy matcher then
    match require_ s with
    | RequireFn (Some cache) =>
        forEach (map fst cache) (fun filename =>
          r <- call_matcher matcher [VString filename] ;;
          if truthy r then delete_require_cache filename else ret tt)
    | _ => ret tt
    end
  else ret tt.

(** *** The module loader as patched by pirates

    [pirates.addHook(hook, {exts, matcher})] is a third-party collaborator.
    Its loader runs [hook(code, filename)] on a file only when the hook has
    not been reverted, the file's extension is one of [exts], the resolved
    path is outside [node_modules] and [matcher(resolvedPath)] is truthy; the
    value the hook returns must be a string; the function it returns marks
    the hook as reverted. *)

(** the opening sentence of the message *)
Definition HOOK_RETURNED_NOTHING_ERROR_MESSAGE : string :=
  "[Pirates] A hook returned a non-string, or nothing at all!".

Definition pirates_addHook (h : pirates_hook) : M nat :=
  s <- get ;;
  modify (set_pirates_hooks (pirates_hooks s ++ [h])) ;;
  ret (length (pirates_hooks s)).

Definition mark_reverted (h : pirates_hook) : pirates_hook :=
  {| ph_transformer := ph_transformer h; ph_verbose := ph_verbose h;
     ph_postLoadHook := ph_postLoadHook h; ph_exts := ph_exts h;
     ph_matcher := ph_matcher h; ph_reverted := true |}.

Fixpoint revert_nth (handle : nat) (hs : list pirates_hook) : list pirates_hook :=
  match hs, handle with
  | [], _ => []
  | h :: rest, O => mark_reverted h :: rest
  | h :: rest, S n => h :: revert_nth n rest
  end.

(** the function returned by [pirates.addHook] *)
Definition pirates_revert (handle : nat) : M unit :=
  modify (fun s => set_pirates_hooks (revert_nth handle (pirates_hooks s)) s).

Definition call_revert (handle : nat) : M unit :=
  log (CallRevert handle) ;; pirates_revert handle.

Definition shouldCompile (h : pirates_hook) (filename : string) : M bool :=
  if negb (existsb (String.eqb (path_extname filename)) (ph_exts h)) then ret false
  else
    let resolvedFilename := path_resolve filename in
    if nodeModulesRegex_test resolvedFilename then ret false
    else if arg_truthy (ph_matcher h) && is_function (ph_matcher h)
         then r <- call_matcher (ph_matcher h) [VString resolvedFilename] ;;
              ret (truthy r)
         else ret true.

(** lines 71-77: the callback handed to [pirates.addHook] *)
Definition requireHook (h : pirates_hook) (c : value) (filename : string) : M value :=
  r <- transformFn (ph_transformer h) (ph_verbose h) c (VString filename) ;;
  match ph_postLoadHook h with
  | Some f => call_postLoadHook f [VString filename] ;; ret tt
  | None => ret tt
  end ;;
  ret (code r).

(** The loaders run from the last installed to the first; each decides
    whether to wrap [module._compile].  The result lists the hooks that
    wrapped it, in the order their wrappers will run. *)
Fixpoint select_hooks (loaders : list pirates_hook) (filename : string)
    : M (list pirates_hook) :=
  match loaders with
  | [] => ret []
  | h :: older =>
      wrap <- (if ph_reverted h then ret false else shouldCompile h filename) ;;
      inner <- select_hooks older filename ;;
      ret (if wrap then (inner ++ [h])%list else inner)
  end.

Fixpoint run_compile (wrappers : list pirates_hook) (c : value) (filename : string)
    : M value :=
  match wrappers with
  | [] =>
      log (Compile c filename) ;;
      fun s => let (r, u) := native_compile c filename (user s) in (r, set_user u s)
  | h :: rest =>
      newCode <- requireHook h c filename ;;
      if is_string newCode then run_compile rest newCode filename
      else throw (VError "Error" HOOK_RETURNED_NOTHING_ERROR_MESSAGE
                    (captureStackTrace "Error" HOOK_RETURNED_NOTHING_ERROR_MESSAGE))
  end.

(** Loading the file [filename] whose text is [content]. *)
Definition load (filename : string) (content : value) : M value :=
  s <- get ;;
  wrappers <- select_hooks (rev (pirates_hooks s)) filename ;;
  run_compile wrappers content filename.

(** lines 62-80 *)
Definition hookRequire (matcher transformer : arg) (options_ : option options)
    : M unit :=
  let options_ := options_or_empty options_ in
  let postLoadHook_ :=
    if arg_truthy (postLoadHook options_) && is_function (postLoadHook options_)
    then match postLoadHook options_ with Fn f => Some f | Val _ => None end
    else None in
  let extensions_ :=
    match extensions options_ with Some e => e | None => [".js"] end in
  revert <- pirates_addHook
              {| ph_transformer := transformer; ph_verbose := verbose options_;
                 ph_postLoadHook := postLoadHook_; ph_exts := extensions_;
                 ph_matcher := matcher; ph_reverted := false |} ;;
  modify (fun s => set_reverts (reverts s ++ [revert]) s).

(** lines 86-91 *)
Definition unhookRequire : M unit :=
  s <- get ;;
  forEach (reverts s) call_revert ;;
  modify (set_reverts []).

(** lines 107-113: the closure installed by [hookCreateScript] *)
Definition createScript_replacement (matcher transformer : arg) (verbose_ : value)
    (c file : value) : M value :=
  hook <- shouldHook matcher file ;;
  if negb (truthy hook) then originalCreateScript c file
  else
    r <- transformFn transformer verbose_ c file ;;
    originalCreateScript (code r) file.

(** lines 104-114 *)
Definition hookCreateScript (matcher transformer : arg) (opts : option options)
    : M unit :=
  let opts := options_or_empty opts in
  modify (set_vm_createScript (Replacement matcher transformer (verbose opts))).

(** lines 121-123 *)
Definition unhookCreateScript : M unit :=
  modify (set_vm_createScript Original).

(** lines 140-146: the closure installed by [hookRunInThisContext] *)
Definition runInThisContext_replacement (matcher transformer : arg)
    (verbose_ : value) (c file : value) : M value :=
  hook <- shouldHook matcher file ;;
  if negb (truthy hook) then originalRunInThisContext c file
  else
    r <- transformFn transformer verbose_ c file ;;
    originalRunInThisContext (code r) file.

(** lines 137-147 *)
Definition hookRunInThisContext (matcher transformer : arg) (opts : option options)
    : M unit :=
  let opts := options_or_empty opts in
  modify (set_vm_runInThisContext (Replacement matcher transformer (verbose opts))).

(** lines 154-156 *)
Definition unhookRunInThisContext : M unit :=
  modify (set_vm_runInThisContext Original).

(** A caller invoking [vm.createScript(code, file)]. *)
Definition vm_createScript_call (c file : value) : M value :=
  s <- get ;;
  match vm_createScript s with
  | Original => originalCreateScript c file
  | Replacement m t v => createScript_replacement m t v c file
  end.

(** A caller invoking [vm.runInThisContext(code, file)]. *)
Definition vm_runInThisContext_call (c file : value) : M value :=
  s <- get ;;
  match vm_runInThisContext s with
  | Original => originalRunInThisContext c file
  | Replacement m t v => runInThisContext_replacement m t v c file
  end.

(** ** Observations on a run *)

Definition final {A} (r : completion A * state) : state := snd r.
Definition outcome {A} (r : completion A * state) : completion A := fst r.

Definition is_CallTransformer (e : event) : bool :=
  match e with CallTransformer _ => true | _ => false end.

Definition is_CallPostLoadHook (e : event) : bool :=
  match e with CallPostLoadHook _ => true | _ => false end.

Definition transformer_calls (t : list event) : list event :=
  filter is_CallTransformer t.

Definition postLoadHook_calls (t : list event) : list event :=
  filter is_CallPostLoadHook t.

(** [require.cache[filename]] *)
Fixpoint cache_lookup (filename : string) (cache : list (string * module_))
    : option module_ :=
  match cache with
  | [] => None
  | (k, m) :: rest => if String.eqb k filename then Some m else cache_lookup filename rest
  end.

Definition cache_of (s : state) : option (list (string * module_)) :=
  match require_ s with RequireFn c => c | _ => None end.

(** The state after the [verbose] line of [transformFn]. *)
Definition verbose_log (verbose_ filename : value) (s : state) : state :=
  if truthy verbose_
  then emit (ConsoleError
               [VString ("Module load hook: transform [" ++ ToString filename ++ "]")]) s
  else s.

(** The [verbose] line as a list of events: one line, or none. *)
Definition verbose_line (verbose_ filename : value) : list event :=
  if truthy verbose_
  then [ConsoleError
          [VString ("Module load hook: transform [" ++ ToString filename ++ "]")]]
  else [].

Definition nullish (v : value) : bool :=
  match v with VUndefined | VNull => true | _ => false end.

(** [ex.message] and [ex.stack] of a thrown value other than [undefined]
    and [null]. *)
Definition message_of (ex : value) : value :=
  match ex with VError _ message _ => VString message | _ => VUndefined end.

Definition stack_of (ex : value) : value :=
  match ex with VError _ _ stack => VString stack | _ => VUndefined end.

(** The state after the three diagnostic lines of the [catch] block. *)
Definition log_diagnostic (filename ex : value) (s : state) : state :=
  emit (ConsoleError [stack_of ex])
    (emit (ConsoleError [if truthy (message_of ex) then message_of ex
                         else VString (ToString ex)])
       (emit (ConsoleError [VString "Transformation error for"; filename;
                            VString "; return original code"]) s)).

(** The matching step turns the file down: the file name is not a string
    (the matcher is not consulted), or the matcher, applied to the resolved
    path, returns a falsy value. *)
Definition rejected (matcher : arg) (file : value) (s s1 : state) : Prop :=
  (is_string file = false /\ s1 = s) \/
  (exists f r, file = VString f /\
               call_matcher matcher [VString (path_resolve f)] s = (Normal r, s1) /\
               truthy r = false).

(** An entry is evicted by a pass over [keys] when its key is among them and
    the verdict [p] on it is truthy. *)
Definition evicted (p : string -> value) (keys : list string)
    (e : string * module_) : bool :=
  existsb (fun k => String.eqb (fst e) k && truthy (p k)) keys.

(** What [hookRequire(matcher, transformer, options)] hands to pirates. *)
Definition installed_hook (matcher transformer : arg) (options_ : option options)
    : pirates_hook :=
  {| ph_transformer := transformer;
     ph_verbose := verbose (options_or_empty options_);
     ph_postLoadHook :=
       match postLoadHook (options_or_empty options_) with
       | Fn f => Some f
       | Val _ => None
       end;
     ph_exts :=
       match extensions (options_or_empty options_) with
       | Some e => e
       | None => [".js"]
       end;
     ph_matcher := matcher;
     ph_reverted := false |}.

Definition is_ConsoleError (e : event) : bool :=
  match e with ConsoleError _ => true | _ => false end.

(** The thrown values on which the [catch] block of [transformFn] runs to
    its end: booleans, strings, safe integers and [Error] instances. *)
Definition plain_thrown (ex : value) : bool :=
  match ex with
  | VUndefined | VNull => false
  | VNumber n => Z.ltb (Z.abs n) (2 ^ 53)
  | VBool _ | VString _ | VError _ _ _ => true
  end.

(** The matcher calls of a pass over the cache keys. *)
Definition matcher_calls_on (keys : list string) : list event :=
  map (fun k => CallMatcher [VString k]) keys.

(** Several installs in a row, each given as (matcher, transformer, options). *)
Definition install : Type := (arg * arg * option options)%type.

Definition hookRequire_all (installs : list install) : M unit :=
  forEach installs (fun i => hookRequire (fst (fst i)) (snd (fst i)) (snd i)).

Definition hookCreateScript_all (installs : list install) : M unit :=
  forEach installs (fun i => hookCreateScript (fst (fst i)) (snd (fst i)) (snd i)).

Definition hookRunInThisContext_all (installs : list install) : M unit :=
  forEach installs (fun i => hookRunInThisContext (fst (fst i)) (snd (fst i)) (snd i)).

End Model.

Notation "x <- m ;; k" := (bind m (fun x => k))
  (at level 61, m at next level, right associativity).
Notation "m ;; k" := (bind m (fun _ => k))
  (at level 61, right associativity).

(** ** A concrete host and concrete callbacks

    The caller's state is a counter of the calls its callbacks have served;
    the pristine entry points return the code they were given.  The path
    functions are stand-ins that agree with Node's on the absolute [.js]
    paths used below. *)

Definition ends_with (suffix s : string) : bool :=
  String.eqb
    (substring (String.length s - String.length suffix) (String.length suffix) s)
    suffix.

Definition demo_host : Host :=
  {| U := nat;
     path_resolve := fun f =>
       if String.eqb (substring 0 1 f) "/" then f else "/cwd/" ++ f;
     path_extname := fun f => if ends_with ".js" f then ".js" else "";
     nodeModulesRegex_test := fun _ => false;
     captureStackTrace := fun name message => name ++ ": " ++ message;
     native_createScript := fun c _ u => (Normal c, u);
     native_runInThisContext := fun c _ u => (Normal c, u);
     native_compile := fun _ _ u => (Normal VUndefined, u) |}.

(** [function (file) { return file.endsWith('foo.js'); }] *)
Definition fooMatcher : @jsfun demo_host :=
  fun args u =>
    match args with
    | VString p :: _ => (Normal (VBool (ends_with "foo.js" p)), S u)
    | _ => (Normal (VBool false), S u)
    end.

(** [function (code, file) { return 'LOG();' + code; }] *)
Definition logTransformer : @jsfun demo_host :=
  fun args u =>
    match args with
    | c :: _ => (Normal (VString ("LOG();" ++ ToString c)), S u)
    | [] => (Normal (VString "LOG();undefined"), S u)
    end.

(** [function (code, file) { return 'OTHER();' + code; }] *)
Definition otherTransformer : @jsfun demo_host :=
  fun args u =>
    match args with
    | c :: _ => (Normal (VString ("OTHER();" ++ ToString c)), S u)
    | [] => (Normal (VString "OTHER();undefined"), S u)
    end.

(** [function () { throw new Error('boom'); }] *)
Definition boomTransformer : @jsfun demo_host :=
  fun _ u => (Throw (VError "Error" "boom" "Error: boom at transformer"), S u).

(** [function () { throw null; }] *)
Definition nullTransformer : @jsfun demo_host :=
  fun _ u => (Throw VNull, S u).

(** [function (file) {}], counting its calls *)
Definition countingPostLoadHook : @jsfun demo_host :=
  fun _ u => (Normal VUndefined, S u).

(** [function (file) { throw new Error('no'); }] *)
Definition throwingMatcher : @jsfun demo_host :=
  fun _ u => (Throw (VError "Error" "no" "Error: no at matcher"), S u).

(** [function (file) { throw new Error('late'); }] *)
Definition throwingPostLoadHook : @jsfun demo_host :=
  fun _ u => (Throw (VError "Error" "late" "Error: late at hook"), S u).

(** a matcher that fails on [/a/bar.js] and accepts [foo.js] files *)
Definition barFailsMatcher : @jsfun demo_host :=
  fun args u =>
    match args with
    | VString p :: _ =>
        if String.eqb p "/a/bar.js"
        then (Throw (VError "Error" "no" "Error: no at matcher"), S u)
        else (Normal (VBool (ends_with "foo.js" p)), S u)
    | _ => (Normal (VBool false), S u)
    end.

Definition demo_cache : list (string * module_) :=
  [("/a/foo.js", VString "foo"); ("/a/bar.js", VString "bar");
   ("/b/foo.js", VString "foo2")].

Definition demo_loaded : @state demo_host :=
  @module_loaded demo_host (RequireFn (Some demo_cache)) 0%nat.

Definition throwing_postLoad_options : @options demo_host :=
  {| verbose := VUndefined; postLoadHook := Fn throwingPostLoadHook;
     extensions := None |}.


Definition postLoad_options : @options demo_host :=
  {| verbose := VUndefined; postLoadHook := Fn countingPostLoadHook;
     extensions := None |}.

(** * Properties *)

Section Properties.
Context {host : Host}.

Ltac proj_state :=
  cbn [vm_createScript vm_runInThisContext reverts pirates_hooks require_ user
       trace set_vm_createScript set_vm_runInThisContext set_reverts
       set_pirates_hooks set_require set_user emit fst snd] in *.

Ltac unfold_m :=
  cbv beta iota delta
    [bind ret throw try_catch get modify log console_error call_matcher
     call_transformer call_postLoadHook call run_user] in *;
  proj_state.

(** ** The transform step *)

Lemma transformFn_success :
  forall (h : jsfun) (v C F : value) (s : state) (C' : value) (u' : U),
    h [C; F] (user s) = (Normal C', u') ->
    transformFn (Fn h) v C F s =
      (Normal {| code := C'; changed := true |},
       set_user u' (emit (CallTransformer [C; F]) (verbose_log v F s))).
Proof.
  intros h v C F s C' u' Hh.
  unfold transformFn, verbose_log. unfold_m.
  destruct (truthy v); proj_state; rewrite Hh; reflexivity.
Qed.

(** A transformer that throws anything but [undefined] or [null]: the three
    diagnostic lines are written and the original code comes back. *)
Lemma transformFn_fallback :
  forall (h : jsfun) (v C F : value) (s : state) (ex : value) (u' : U),
    h [C; F] (user s) = (Throw ex, u') ->
    nullish ex = false ->
    transformFn (Fn h) v C F s =
      (Normal {| code := C; changed := false |},
       log_diagnostic F ex
         (set_user u' (emit (CallTransformer [C; F]) (verbose_log v F s)))).
Proof.
  intros h v C F s ex u' Hh Hex.
  unfold transformFn, verbose_log, log_diagnostic. unfold_m.
  destruct (truthy v); proj_state; rewrite Hh;
    destruct ex; try discriminate Hex; reflexivity.
Qed.

(** A transformer that is not a function: the call raises a [TypeError]
    inside the [try] block, which is an [Error] object, so the fallback
    applies. *)
Lemma transformFn_not_a_function :
  forall (x v C F : value) (s : state),
    outcome (transformFn (Val x) v C F s) =
      Normal {| code := C; changed := false |}.
Proof.
  intros x v C F s. unfold transformFn, outcome. unfold_m.
  destruct (truthy v); reflexivity.
Qed.

(** A transformer that throws [undefined] or [null]: reading [ex.message]
    in the [catch] block raises, and that error leaves [transformFn]. *)
Lemma transformFn_nullish_escapes :
  forall (h : jsfun) (v C F : value) (s : state) (ex : value) (u' : U),
    h [C; F] (user s) = (Throw ex, u') ->
    nullish ex = true ->
    outcome (transformFn (Fn h) v C F s) =
      Throw (TypeError ("Cannot read property 'message' of " ++ ToString ex)).
Proof.
  intros h v C F s ex u' Hh Hex.
  unfold transformFn, outcome. unfold_m.
  destruct (truthy v); proj_state; rewrite Hh;
    destruct ex; try discriminate Hex; reflexivity.
Qed.

(** ** The script entry points *)

Lemma originalCreateScript_trace :
  forall (C F : value) (s : state),
    trace (final (originalCreateScript C F s)) =
      (trace s ++ [CallOriginalCreateScript C F])%list.
Proof.
  intros C F s. unfold originalCreateScript, final. unfold_m.
  destruct (native_createScript C F (user s)); reflexivity.
Qed.

Lemma originalRunInThisContext_trace :
  forall (C F : value) (s : state),
    trace (final (originalRunInThisContext C F s)) =
      (trace s ++ [CallOriginalRunInThisContext C F])%list.
Proof.
  intros C F s. unfold originalRunInThisContext, final. unfold_m.
  destruct (native_runInThisContext C F (user s)); reflexivity.
Qed.

Lemma call_matcher_trace :
  forall (m : arg) (a : list value) (s s1 : state) (r : value),
    call_matcher m a s = (Normal r, s1) ->
    trace s1 = (trace s ++ [CallMatcher a])%list.
Proof.
  intros m a s s1 r H. destruct m as [g | x]; unfold_m.
  - destruct (g a (user s)) as [r' u']. inversion H; subst. reflexivity.
  - discriminate H.
Qed.

Lemma transformer_calls_app :
  forall (t1 t2 : list event),
    transformer_calls (t1 ++ t2) = (transformer_calls t1 ++ transformer_calls t2)%list.
Proof. intros. unfold transformer_calls. apply filter_app. Qed.

Lemma shouldHook_rejected :
  forall (m : arg) (F : value) (s s1 : state),
    rejected m F s s1 ->
    exists r, shouldHook m F s = (Normal r, s1) /\ truthy r = false.
Proof.
  intros m F s s1 [[HF Hs] | (f & r & HF & Hm & Hr)].
  - subst s1. exists (VBool false). split; [|reflexivity].
    destruct F; try discriminate HF; reflexivity.
  - subst F. exists r. split; assumption.
Qed.

Lemma rejected_no_transformer_call :
  forall (m : arg) (F : value) (s s1 : state),
    rejected m F s s1 ->
    transformer_calls (trace s1) = transformer_calls (trace s).
Proof.
  intros m F s s1 [[HF Hs] | (f & r & HF & Hm & Hr)].
  - subst; reflexivity.
  - rewrite (call_matcher_trace _ _ _ _ _ Hm), transformer_calls_app.
    apply app_nil_r.
Qed.

Lemma createScript_rejected :
  forall (m t : arg) (v C F : value) (s s1 : state),
    rejected m F s s1 ->
    createScript_replacement m t v C F s = originalCreateScript C F s1.
Proof.
  intros m t v C F s s1 Hrej.
  destruct (shouldHook_rejected _ _ _ _ Hrej) as (r & Hs & Hr).
  unfold createScript_replacement. unfold bind at 1. rewrite Hs, Hr. reflexivity.
Qed.

Lemma runInThisContext_rejected :
  forall (m t : arg) (v C F : value) (s s1 : state),
    rejected m F s s1 ->
    runInThisContext_replacement m t v C F s = originalRunInThisContext C F s1.
Proof.
  intros m t v C F s s1 Hrej.
  destruct (shouldHook_rejected _ _ _ _ Hrej) as (r & Hs & Hr).
  unfold runInThisContext_replacement. unfold bind at 1. rewrite Hs, Hr. reflexivity.
Qed.

(** A call through the entry point right after an install runs the closure
    built by that install. *)
Lemma installed_createScript_call :
  forall (m t : arg) (o : option options) (C F : value) (s : state),
    (hookCreateScript m t o ;; vm_createScript_call C F) s =
      createScript_replacement m t (verbose (options_or_empty o)) C F
        (set_vm_createScript
           (Replacement m t (verbose (options_or_empty o))) s).
Proof. reflexivity. Qed.

Lemma installed_runInThisContext_call :
  forall (m t : arg) (o : option options) (C F : value) (s : state),
    (hookRunInThisContext m t o ;; vm_runInThisContext_call C F) s =
      runInThisContext_replacement m t (verbose (options_or_empty o)) C F
        (set_vm_runInThisContext
           (Replacement m t (verbose (options_or_empty o))) s).
Proof. reflexivity. Qed.

(** C2. After [hookCreateScript(matcher, transformer, opts)] (and likewise
    [hookRunInThisContext]), a call through the entry point on a file the
    matcher accepts, with a transformer that returns: the transform step
    yields the transformer's result with [changed = true], and the captured
    original is called with exactly that result in place of the code. *)
Theorem replacement_passes_transformed_code :
  forall (g h : jsfun) (o : option options) (C : value) (f : string) (s : state)
         (r : value) (u1 : U) (C' : value) (u2 : U),
    g [VString (path_resolve f)] (user s) = (Normal r, u1) ->
    truthy r = true ->
    h [C; VString f] u1 = (Normal C', u2) ->
    let v := verbose (options_or_empty o) in
    let matched s0 :=
      set_user u1 (emit (CallMatcher [VString (path_resolve f)]) s0) in
    let transformed s0 :=
      set_user u2 (emit (CallTransformer [C; VString f])
                     (verbose_log v (VString f) (matched s0))) in
    let hooked := set_vm_createScript (Replacement (Fn g) (Fn h) v) s in
    let hooked' := set_vm_runInThisContext (Replacement (Fn g) (Fn h) v) s in
    transformFn (Fn h) v C (VString f) (matched hooked) =
      (Normal {| code := C'; changed := true |}, transformed hooked)
    /\ (hookCreateScript (Fn g) (Fn h) o ;; vm_createScript_call C (VString f)) s =
         originalCreateScript C' (VString f) (transformed hooked)
    /\ (hookRunInThisContext (Fn g) (Fn h) o ;;
         vm_runInThisContext_call C (VString f)) s =
         originalRunInThisContext C' (VString f) (transformed hooked')
    /\ trace (final ((hookCreateScript (Fn g) (Fn h) o ;;
                      vm_createScript_call C (VString f)) s)) =
         (trace s ++ [CallMatcher [VString (path_resolve f)]] ++
          verbose_line v (VString f) ++
          [CallTransformer [C; VString f];
           CallOriginalCreateScript C' (VString f)])%list
    /\ createScript_replacement (Fn g) (Fn h) v C (VString f) s =
         originalCreateScript C' (VString f) (transformed s)
    /\ runInThisContext_replacement (Fn g) (Fn h) v C (VString f) s =
         originalRunInThisContext C' (VString f) (transformed s).
Proof.
  intros g h o C f s r u1 C' u2 Hg Hr Hh v matched transformed hooked hooked'.
  assert (Ht : forall s0, user s0 = user s ->
            transformFn (Fn h) v C (VString f) (matched s0) =
              (Normal {| code := C'; changed := true |}, transformed s0)).
  { intros s0 _. apply transformFn_success. exact Hh. }
  assert (Hcs : forall s0, user s0 = user s ->
            createScript_replacement (Fn g) (Fn h) v C (VString f) s0 =
              originalCreateScript C' (VString f) (transformed s0)).
  { intros s0 Hu. unfold createScript_replacement, shouldHook. unfold_m.
    rewrite Hu, Hg, Hr. cbn [negb]. fold (matched s0).
    rewrite (Ht s0 Hu). reflexivity. }
  assert (Hrc : forall s0, user s0 = user s ->
            runInThisContext_replacement (Fn g) (Fn h) v C (VString f) s0 =
              originalRunInThisContext C' (VString f) (transformed s0)).
  { intros s0 Hu. unfold runInThisContext_replacement, shouldHook. unfold_m.
    rewrite Hu, Hg, Hr. cbn [negb]. fold (matched s0).
    rewrite (Ht s0 Hu). reflexivity. }
  assert (Hcall : (hookCreateScript (Fn g) (Fn h) o ;;
                   vm_createScript_call C (VString f)) s =
                  originalCreateScript C' (VString f) (transformed hooked)).
  { rewrite installed_createScript_call. apply Hcs. reflexivity. }
  split; [apply Ht; reflexivity |].
  split; [exact Hcall |].
  split; [rewrite installed_runInThisContext_call; apply Hrc; reflexivity |].
  split; [| split; [apply Hcs; reflexivity | apply Hrc; reflexivity]].
  rewrite Hcall, originalCreateScript_trace.
  unfold transformed, matched, hooked, verbose_log, verbose_line.
  destruct (truthy v); proj_state; rewrite <- ?app_assoc; reflexivity.
Qed.

(** C3. When the file name is not a string, or the matcher returns a falsy
    value on the resolved path, the replacements of [vm.createScript] and
    [vm.runInThisContext] hand [(code, file)] unchanged to the captured
    original and the transformer is not called; a file name that is not a
    string is turned down without consulting the matcher. *)
Theorem replacement_delegates_when_rejected :
  forall (m t : arg) (v C F : value) (s s1 : state),
    rejected m F s s1 ->
    createScript_replacement m t v C F s = originalCreateScript C F s1
    /\ runInThisContext_replacement m t v C F s = originalRunInThisContext C F s1
    /\ transformer_calls (trace (final (createScript_replacement m t v C F s))) =
         transformer_calls (trace s)
    /\ transformer_calls (trace (final (runInThisContext_replacement m t v C F s))) =
         transformer_calls (trace s)
    /\ (is_string F = false ->
         shouldHook m F s = (Normal (VBool false), s) /\ s1 = s).
Proof.
  intros m t v C F s s1 Hrej.
  pose proof (createScript_rejected m t v C F s s1 Hrej) as Hc.
  pose proof (runInThisContext_rejected m t v C F s s1 Hrej) as Hr'.
  repeat split.
  - exact Hc.
  - exact Hr'.
  - rewrite Hc, originalCreateScript_trace, transformer_calls_app.
    rewrite (rejected_no_transformer_call _ _ _ _ Hrej). apply app_nil_r.
  - rewrite Hr', originalRunInThisContext_trace, transformer_calls_app.
    rewrite (rejected_no_transformer_call _ _ _ _ Hrej). apply app_nil_r.
  - destruct F; try discriminate; reflexivity.
  - destruct Hrej as [[_ E] | (f & r' & HF & _)]; [exact E | subst F; discriminate].
Qed.

(** ** Installing and removing the script hooks *)

Lemma hookCreateScript_all_final :
  forall (installs : list install) (s : state),
    exists s', hookCreateScript_all installs s = (Normal tt, s') /\
               set_vm_createScript Original s' = set_vm_createScript Original s.
Proof.
  induction installs as [| i rest IH]; intros s.
  - exists s. split; reflexivity.
  - destruct (IH (set_vm_createScript
                    (Replacement (fst (fst i)) (snd (fst i))
                       (verbose (options_or_empty (snd i)))) s))
      as (s' & Hrun & Hs').
    exists s'. split.
    + unfold hookCreateScript_all in *. cbn [forEach].
      unfold hookCreateScript at 1. unfold bind at 1. unfold modify at 1.
      exact Hrun.
    + rewrite Hs'. reflexivity.
Qed.

Lemma hookRunInThisContext_all_final :
  forall (installs : list install) (s : state),
    exists s', hookRunInThisContext_all installs s = (Normal tt, s') /\
               set_vm_runInThisContext Original s' =
               set_vm_runInThisContext Original s.
Proof.
  induction installs as [| i rest IH]; intros s.
  - exists s. split; reflexivity.
  - destruct (IH (set_vm_runInThisContext
                    (Replacement (fst (fst i)) (snd (fst i))
                       (verbose (options_or_empty (snd i)))) s))
      as (s' & Hrun & Hs').
    exists s'. split.
    + unfold hookRunInThisContext_all in *. cbn [forEach].
      unfold hookRunInThisContext at 1. unfold bind at 1. unfold modify at 1.
      exact Hrun.
    + rewrite Hs'. reflexivity.
Qed.

(** C5. [unhookCreateScript] and [unhookRunInThisContext] put the function
    captured at module load back, whatever the entry point holds: after any
    number of installs the entry point is the original again and a call
    reaches the original directly; right after module load, with nothing
    installed, the state is left as it is. *)
Theorem unhook_restores_pristine_original :
  forall (installs : list install) (s : state) (r : require_env) (u : U)
         (C F : value),
    vm_createScript (final (unhookCreateScript s)) = Original
    /\ vm_runInThisContext (final (unhookRunInThisContext s)) = Original
    /\ (hookCreateScript_all installs ;; unhookCreateScript) s =
         (Normal tt, set_vm_createScript Original s)
    /\ (hookRunInThisContext_all installs ;; unhookRunInThisContext) s =
         (Normal tt, set_vm_runInThisContext Original s)
    /\ (hookCreateScript_all installs ;; unhookCreateScript ;;
         vm_createScript_call C F) s =
         originalCreateScript C F (set_vm_createScript Original s)
    /\ (hookRunInThisContext_all installs ;; unhookRunInThisContext ;;
         vm_runInThisContext_call C F) s =
         originalRunInThisContext C F (set_vm_runInThisContext Original s)
    /\ unhookCreateScript (module_loaded r u) = (Normal tt, module_loaded r u)
    /\ unhookRunInThisContext (module_loaded r u) = (Normal tt, module_loaded r u).
Proof.
  intros installs s r u C F.
  destruct (hookCreateScript_all_final installs s) as (s1 & H1 & E1).
  destruct (hookRunInThisContext_all_final installs s) as (s2 & H2 & E2).
  repeat split.
  - unfold bind. rewrite H1. unfold unhookCreateScript, modify. rewrite E1. reflexivity.
  - unfold bind. rewrite H2. unfold unhookRunInThisContext, modify. rewrite E2. reflexivity.
  - unfold bind at 1. rewrite H1. unfold bind at 1.
    unfold unhookCreateScript, modify. rewrite E1. reflexivity.
  - unfold bind at 1. rewrite H2. unfold bind at 1.
    unfold unhookRunInThisContext, modify. rewrite E2. reflexivity.
Qed.

(** C6. A second [hookCreateScript] overwrites the first replacement: the
    state is the one the second install alone would have produced, so a call
    runs the second matcher and transformer only, and a call the second
    matcher turns down goes straight to the captured original. *)
Theorem second_hookCreateScript_overwrites :
  forall (m1 t1 : arg) (o1 : option options) (m2 t2 : arg) (o2 : option options)
         (s : state) (C F : value),
    (hookCreateScript m1 t1 o1 ;; hookCreateScript m2 t2 o2) s =
      hookCreateScript m2 t2 o2 s
    /\ vm_createScript
         (final ((hookCreateScript m1 t1 o1 ;; hookCreateScript m2 t2 o2) s)) =
         Replacement m2 t2 (verbose (options_or_empty o2))
    /\ (hookCreateScript m1 t1 o1 ;; hookCreateScript m2 t2 o2 ;;
         vm_createScript_call C F) s =
         createScript_replacement m2 t2 (verbose (options_or_empty o2)) C F
           (final (hookCreateScript m2 t2 o2 s))
    /\ (forall s1, rejected m2 F (final (hookCreateScript m2 t2 o2 s)) s1 ->
         (hookCreateScript m1 t1 o1 ;; hookCreateScript m2 t2 o2 ;;
          vm_createScript_call C F) s = originalCreateScript C F s1).
Proof.
  intros m1 t1 o1 m2 t2 o2 s C F.
  assert (Hcall : (hookCreateScript m1 t1 o1 ;; hookCreateScript m2 t2 o2 ;;
                   vm_createScript_call C F) s =
                  createScript_replacement m2 t2 (verbose (options_or_empty o2)) C F
                    (final (hookCreateScript m2 t2 o2 s))) by reflexivity.
  split; [reflexivity | split; [reflexivity | split; [exact Hcall |]]].
  intros s1 Hrej. rewrite Hcall.
  apply createScript_rejected. exact Hrej.
Qed.

(** ** The module hooks *)

Lemma forEach_call_revert :
  forall (handles : list nat) (s : state),
    forEach handles call_revert s =
      (Normal tt,
       {| vm_createScript := vm_createScript s;
          vm_runInThisContext := vm_runInThisContext s;
          reverts := reverts s;
          pirates_hooks :=
            fold_left (fun hooks handle => revert_nth handle hooks) handles
              (pirates_hooks s);
          require_ := require_ s;
          user := user s;
          trace := trace s ++ map CallRevert handles |}).
Proof.
  induction handles as [| h rest IH]; intros s.
  - cbn [forEach map fold_left]. rewrite app_nil_r. destruct s; reflexivity.
  - cbn [forEach map fold_left]. unfold bind at 1. unfold call_revert at 1.
    unfold_m. unfold pirates_revert, modify. rewrite IH. proj_state.
    rewrite <- app_assoc. reflexivity.
Qed.

Lemma hookRequire_run :
  forall (m t : arg) (o : option options) (s : state),
    hookRequire m t o s =
      (Normal tt,
       set_reverts (reverts s ++ [length (pirates_hooks s)])
         (set_pirates_hooks (pirates_hooks s ++ [installed_hook m t o]) s)).
Proof.
  intros m t o s. unfold hookRequire, pirates_addHook, installed_hook. unfold_m.
  destruct (postLoadHook (options_or_empty o)) as [f | x].
  - reflexivity.
  - cbn [arg_truthy is_function]. rewrite andb_false_r. reflexivity.
Qed.

Lemma hookRequire_all_reverts :
  forall (installs : list install) (s : state),
    outcome (hookRequire_all installs s) = Normal tt
    /\ reverts (final (hookRequire_all installs s)) =
         (reverts s ++ seq (length (pirates_hooks s)) (length installs))%list
    /\ map ph_transformer (pirates_hooks (final (hookRequire_all installs s))) =
         (map ph_transformer (pirates_hooks s) ++
          map (fun i : install => snd (fst i)) installs)%list
    /\ trace (final (hookRequire_all installs s)) = trace s.
Proof.
  induction installs as [| i rest IH]; intros s.
  - cbn. rewrite !app_nil_r. repeat split; reflexivity.
  - assert (E : hookRequire_all (i :: rest) s =
                hookRequire_all rest
                  (set_reverts (reverts s ++ [length (pirates_hooks s)])
                     (set_pirates_hooks
                        (pirates_hooks s ++
                         [installed_hook (fst (fst i)) (snd (fst i)) (snd i)]) s))).
    { unfold hookRequire_all. cbn [forEach]. unfold bind at 1.
      rewrite hookRequire_run. reflexivity. }
    rewrite E.
    match goal with
    | |- context [hookRequire_all rest ?s0] =>
        destruct (IH s0) as (Ho & Hr & Hp & Ht)
    end.
    rewrite Ho, Hr, Hp, Ht. proj_state.
    rewrite length_app, map_app. cbn [length map seq installed_hook ph_transformer].
    rewrite <- !app_assoc. rewrite Nat.add_1_r. repeat split; reflexivity.
Qed.

(** C7. [hookRequire] records its revert handles in the order of the
    installs; [unhookRequire] calls every recorded handle in that order and
    leaves the list empty; with no handle recorded it changes nothing, so a
    second [unhookRequire] is a no-op. *)
Theorem unhookRequire_reverts_in_registration_order :
  forall (installs : list install) (r : require_env) (u : U) (s : state),
    reverts (final (hookRequire_all installs (module_loaded r u))) =
      seq 0 (length installs)
    /\ map ph_transformer
         (pirates_hooks (final (hookRequire_all installs (module_loaded r u)))) =
         map (fun i : install => snd (fst i)) installs
    /\ outcome (unhookRequire s) = Normal tt
    /\ trace (final (unhookRequire s)) = (trace s ++ map CallRevert (reverts s))%list
    /\ reverts (final (unhookRequire s)) = []
    /\ trace (final ((hookRequire_all installs ;; unhookRequire) (module_loaded r u))) =
         map CallRevert (seq 0 (length installs))
    /\ unhookRequire (set_reverts [] s) = (Normal tt, set_reverts [] s)
    /\ unhookRequire (final (unhookRequire s)) = (Normal tt, final (unhookRequire s)).
Proof.
  intros installs r u s.
  destruct (hookRequire_all_reverts installs (module_loaded r u))
    as (Ho & Hr & Hp & Ht).
  assert (Hun : forall s0, unhookRequire s0 =
            (Normal tt,
             set_reverts []
               {| vm_createScript := vm_createScript s0;
                  vm_runInThisContext := vm_runInThisContext s0;
                  reverts := reverts s0;
                  pirates_hooks :=
                    fold_left (fun hooks handle => revert_nth handle hooks)
                      (reverts s0) (pirates_hooks s0);
                  require_ := require_ s0;
                  user := user s0;
                  trace := trace s0 ++ map CallRevert (reverts s0) |})).
  { intros s0. unfold unhookRequire. unfold_m. rewrite forEach_call_revert.
    reflexivity. }
  split; [exact Hr |]. split; [exact Hp |].
  split; [rewrite Hun; reflexivity |].
  split; [rewrite Hun; reflexivity |].
  split; [rewrite Hun; reflexivity |].
  split.
  { unfold bind. unfold outcome, final in *.
    destruct (hookRequire_all installs (module_loaded r u)) as [[[]|ex] s'];
      cbn [fst snd] in *; try discriminate Ho.
    rewrite Hun. unfold final. proj_state. rewrite Hr, Ht. reflexivity. }
  split.
  { rewrite Hun. proj_state. cbn [fold_left map]. rewrite app_nil_r.
    destruct s; reflexivity. }
  rewrite (Hun s). unfold final. cbn [snd]. rewrite Hun. proj_state.
  cbn [fold_left map]. rewrite app_nil_r. reflexivity.
Qed.

Lemma revert_nth_middle :
  forall (pre : list pirates_hook) (h : pirates_hook) (rest : list pirates_hook),
    revert_nth (length pre) (pre ++ h :: rest)%list =
      (pre ++ mark_reverted h :: rest)%list.
Proof.
  induction pre as [| x pre IH]; intros h rest; cbn [length app revert_nth].
  - reflexivity.
  - rewrite IH. reflexivity.
Qed.

Lemma revert_every_handle :
  forall (hooks pre : list pirates_hook),
    fold_left (fun hs handle => revert_nth handle hs)
      (seq (length pre) (length hooks)) (pre ++ hooks)%list =
      (pre ++ map mark_reverted hooks)%list.
Proof.
  induction hooks as [| h rest IH]; intros pre; cbn [length seq fold_left map].
  - reflexivity.
  - rewrite revert_nth_middle.
    replace (pre ++ mark_reverted h :: rest)%list
      with ((pre ++ [mark_reverted h]) ++ rest)%list
      by (rewrite <- app_assoc; reflexivity).
    replace (S (length pre)) with (length (pre ++ [mark_reverted h])%list)
      by (rewrite length_app; cbn [length]; apply Nat.add_1_r).
    rewrite IH, <- app_assoc. reflexivity.
Qed.

Lemma select_hooks_all_reverted :
  forall (loaders : list pirates_hook) (f : string) (s : state),
    forallb ph_reverted loaders = true ->
    select_hooks loaders f s = (Normal [], s).
Proof.
  induction loaders as [| h older IH]; intros f s Hall.
  - reflexivity.
  - cbn [forallb] in Hall. apply andb_true_iff in Hall. destruct Hall as (Hh & Ho).
    cbn [select_hooks]. rewrite Hh. unfold_m. rewrite (IH f s Ho). reflexivity.
Qed.

Lemma forallb_mark_reverted :
  forall (hooks : list pirates_hook),
    forallb ph_reverted (rev (map mark_reverted hooks)) = true.
Proof.
  intros hooks. apply forallb_forall. intros h Hin.
  apply in_rev in Hin. apply in_map_iff in Hin.
  destruct Hin as (h0 & E & _). subst h. reflexivity.
Qed.

(** After any installs followed by [unhookRequire], every hook is reverted:
    a load consults no matcher, runs no transformer and compiles the file's
    own text. *)
Lemma unhookRequire_restores_loader :
  forall (installs : list install) (r : require_env) (u : U)
         (f : string) (c : value),
    load f c (final ((hookRequire_all installs ;; unhookRequire) (module_loaded r u)))
    = run_compile [] c f
        (final ((hookRequire_all installs ;; unhookRequire) (module_loaded r u))).
Proof.
  intros installs r u f c.
  assert (Hinv : forall l (s : state),
            reverts s = seq 0 (length (pirates_hooks s)) ->
            reverts (final (hookRequire_all l s)) =
              seq 0 (length (pirates_hooks (final (hookRequire_all l s))))
            /\ outcome (hookRequire_all l s) = Normal tt).
  { induction l as [| i rest IH]; intros s Hs.
    - split; [exact Hs | reflexivity].
    - unfold hookRequire_all in *. cbn [forEach]. unfold bind.
      rewrite hookRequire_run. apply IH. proj_state.
      rewrite Hs, length_app. cbn [length]. rewrite seq_app. reflexivity. }
  destruct (Hinv installs (module_loaded r u) eq_refl) as (Hr & Ho).
  unfold bind at 1 2. unfold outcome, final in *.
  destruct (hookRequire_all installs (module_loaded r u)) as [[[] | ex] s1];
    cbn [fst snd] in *; try discriminate Ho.
  unfold unhookRequire. unfold_m. rewrite forEach_call_revert. cbn [snd].
  unfold load. unfold_m. rewrite Hr.
  pose proof (revert_every_handle (pirates_hooks s1) []) as Hall.
  cbn [app length] in Hall. rewrite Hall.
  rewrite select_hooks_all_reverted by apply forallb_mark_reverted.
  reflexivity.
Qed.

(** ** The module cache *)

Lemma filter_filter :
  forall (A : Type) (f g : A -> bool) (l : list A),
    filter f (filter g l) = filter (fun x => g x && f x) l.
Proof.
  intros A f g l. induction l as [| x l IH]; [reflexivity |].
  cbn [filter]. destruct (g x); cbn [filter andb]; rewrite IH; reflexivity.
Qed.

Lemma unload_loop :
  forall (g : jsfun) (p : string -> value) (keys : list string)
         (s : state) (cache : list (string * module_)),
    (forall k u, In k keys -> exists u', g [VString k] u = (Normal (p k), u')) ->
    require_ s = RequireFn (Some cache) ->
    exists s',
      forEach keys (fun filename =>
          r <- call_matcher (Fn g) [VString filename] ;;
          if truthy r then delete_require_cache filename else ret tt) s =
        (Normal tt, s')
      /\ require_ s' =
           RequireFn (Some (filter (fun e => negb (evicted p keys e)) cache))
      /\ vm_createScript s' = vm_createScript s
      /\ vm_runInThisContext s' = vm_runInThisContext s
      /\ reverts s' = reverts s
      /\ pirates_hooks s' = pirates_hooks s
      /\ trace s' = (trace s ++ map (fun k => CallMatcher [VString k]) keys)%list.
Proof.
  induction keys as [| k keys IH]; intros s cache Hp Hc.
  - exists s. cbn [forEach map]. rewrite app_nil_r. unfold ret.
    repeat split; try reflexivity.
    rewrite Hc. f_equal. f_equal. unfold evicted. cbn [existsb negb].
    clear. induction cache as [| e c IHc]; [reflexivity |].
    cbn [filter]. rewrite <- IHc. reflexivity.
  - destruct (Hp k (user s) (or_introl eq_refl)) as (u' & Hg).
    assert (Hp' : forall k0 u, In k0 keys ->
                    exists u0, g [VString k0] u = (Normal (p k0), u0)).
    { intros k0 u Hin. apply Hp. right; exact Hin. }
    cbn [forEach map]. unfold bind at 1. unfold bind at 1. unfold_m.
    rewrite Hg. destruct (truthy (p k)) eqn:Htr.
    + unfold delete_require_cache, modify. proj_state. rewrite Hc.
      match goal with
      | |- context [forEach keys _ ?s0] =>
          destruct (IH s0 (cache_delete k cache) Hp' eq_refl)
            as (s' & Hrun & Hreq & H1 & H2 & H3 & H4 & H5)
      end.
      exists s'. split; [exact Hrun |].
      split.
      { rewrite Hreq. f_equal. f_equal. unfold cache_delete.
        rewrite filter_filter. apply filter_ext. intros e.
        unfold evicted. cbn [existsb]. rewrite Htr, andb_true_r.
        rewrite negb_orb. reflexivity. }
      proj_state. rewrite H5. proj_state. rewrite <- app_assoc.
      repeat split; assumption || reflexivity.
    + match goal with
      | |- context [forEach keys _ ?s0] =>
          destruct (IH s0 cache Hp' Hc)
            as (s' & Hrun & Hreq & H1 & H2 & H3 & H4 & H5)
      end.
      exists s'. split; [exact Hrun |].
      split.
      { rewrite Hreq. f_equal. f_equal. apply filter_ext. intros e.
        unfold evicted. cbn [existsb]. rewrite Htr, andb_false_r. reflexivity. }
      proj_state. rewrite H5. proj_state. rewrite <- app_assoc.
      repeat split; assumption || reflexivity.
Qed.

Lemma evicted_all_keys :
  forall (p : string -> value) (cache : list (string * module_)),
    filter (fun e => negb (evicted p (map fst cache) e)) cache =
    filter (fun e => negb (truthy (p (fst e)))) cache.
Proof.
  intros p cache. apply filter_ext_in. intros e Hin. f_equal.
  unfold evicted. destruct (truthy (p (fst e))) eqn:Htr.
  - apply existsb_exists. exists (fst e). split.
    + apply in_map. exact Hin.
    + rewrite String.eqb_refl, Htr. reflexivity.
  - destruct (existsb _ _) eqn:E; [| reflexivity].
    apply existsb_exists in E. destruct E as (k & _ & Hk).
    apply andb_true_iff in Hk. destruct Hk as (Hk1 & Hk2).
    apply String.eqb_eq in Hk1. subst k. congruence.
Qed.

Lemma cache_lookup_filter :
  forall (p : string -> value) (k : string) (cache : list (string * module_)),
    cache_lookup k (filter (fun e => negb (truthy (p (fst e)))) cache) =
    if truthy (p k) then None else cache_lookup k cache.
Proof.
  intros p k cache. induction cache as [| [k' m] rest IH].
  - cbn. destruct (truthy (p k)); reflexivity.
  - cbn [filter fst cache_lookup].
    destruct (String.eqb k' k) eqn:Ek.
    + apply String.eqb_eq in Ek. subst k'.
      destruct (truthy (p k)) eqn:Htr; cbn [negb].
      * exact IH.
      * cbn [cache_lookup]. rewrite String.eqb_refl. reflexivity.
    + destruct (truthy (p k')); cbn [negb cache_lookup].
      * exact IH.
      * rewrite Ek. exact IH.
Qed.

(** C8. With a matcher whose verdict on a path is [p path], whatever the
    caller's state, [unloadRequireCache] returns and leaves in the cache, in
    their order and with their modules, exactly the entries whose key the
    matcher does not accept; nothing else in the state changes.  When
    [require] or [require.cache] is missing, nothing happens at all. *)
Theorem unloadRequireCache_evicts_exactly_matched :
  forall (g : jsfun) (p : string -> value) (s : state)
         (cache : list (string * module_)),
    (forall k u, In k (map fst cache) ->
                 exists u', g [VString k] u = (Normal (p k), u')) ->
    (require_ s = RequireFn (Some cache) ->
     exists s',
       unloadRequireCache (Fn g) s = (Normal tt, s')
       /\ cache_of s' = Some (filter (fun e => negb (truthy (p (fst e)))) cache)
       /\ (forall k,
              cache_lookup k (filter (fun e => negb (truthy (p (fst e)))) cache) =
              if truthy (p k) then None else cache_lookup k cache)
       /\ vm_createScript s' = vm_createScript s
       /\ vm_runInThisContext s' = vm_runInThisContext s
       /\ reverts s' = reverts s
       /\ pirates_hooks s' = pirates_hooks s)
    /\ (cache_of s = None ->
         forall m, unloadRequireCache m s = (Normal tt, s)).
Proof.
  intros g p s cache Hp. split.
  - intros Hc.
    destruct (unload_loop g p (map fst cache) s cache Hp Hc)
      as (s' & Hrun & Hreq & H1 & H2 & H3 & H4 & _).
    exists s'. split.
    { unfold unloadRequireCache. unfold bind at 1. unfold get at 1.
      cbn [arg_truthy]. rewrite Hc. exact Hrun. }
    assert (Hcache : cache_of s' =
              Some (filter (fun e => negb (truthy (p (fst e)))) cache)).
    { unfold cache_of. rewrite Hreq, evicted_all_keys. reflexivity. }
    split; [exact Hcache |]. split.
    { intros k. apply cache_lookup_filter. }
    repeat split; assumption.
  - intros Hnone m. unfold unloadRequireCache. unfold_m.
    destruct (arg_truthy m); [| reflexivity].
    unfold cache_of in Hnone.
    destruct (require_ s) as [| | [c |]]; try discriminate Hnone; reflexivity.
Qed.

(** C10. With a falsy value in place of the matcher ([undefined], [null],
    ...), [unloadRequireCache] returns normally and the state, the cache
    included, is what it was. *)
Theorem unloadRequireCache_falsy_matcher :
  forall (v : value) (s : state),
    truthy v = false ->
    unloadRequireCache (Val v) s = (Normal tt, s).
Proof.
  intros v s Hv. unfold unloadRequireCache. unfold_m.
  cbn [arg_truthy]. rewrite Hv. reflexivity.
Qed.

(** ** The callback of [hookRequire] *)

(** Whenever the callback runs with a transformer that is a function, the
    transformer is the first thing it calls (after the [verbose] line): the
    post-load hook is never reached on a file the transformer was not called
    on. *)
Lemma requireHook_calls_transformer_first :
  forall (hk : pirates_hook) (h : jsfun) (C : value) (f : string) (s : state),
    ph_transformer hk = Fn h ->
    exists rest,
      trace (final (requireHook hk C f s)) =
        (trace s ++ verbose_line (ph_verbose hk) (VString f) ++
         CallTransformer [C; VString f] :: rest)%list.
Proof.
  intros hk h C f s Hh.
  unfold requireHook, transformFn, verbose_line, final. rewrite Hh. unfold_m.
  destruct (truthy (ph_verbose hk)); proj_state;
    (destruct (h [C; VString f] (user s)) as [[c' | ex] u'];
     [ | destruct ex ]);
    cbn [get_prop TypeError]; unfold_m;
    repeat match goal with
           | |- context [if String.eqb ?a ?b then _ else _] =>
               destruct (String.eqb a b)
           end;
    (destruct (ph_postLoadHook hk) as [pl | ];
     [ try match goal with
           | |- context [pl ?a ?u] => destruct (pl a u) as [[? | ?] ?]
           end
     | ]);
    proj_state; rewrite <- ?app_assoc; cbn [app];
    eexists; reflexivity.
Qed.

(** Once the transform step has returned, with the transformer's result or
    with the original code, the post-load hook is called next, with the file
    name, and the callback returns the code of the transform result. *)
Lemma requireHook_after_transform :
  forall (hk : pirates_hook) (pl : jsfun) (C : value) (f : string)
         (s s1 : state) (r : transformResult),
    ph_postLoadHook hk = Some pl ->
    transformFn (ph_transformer hk) (ph_verbose hk) C (VString f) s =
      (Normal r, s1) ->
    requireHook hk C f s = (call_postLoadHook pl [VString f] ;; ret (code r)) s1.
Proof.
  intros hk pl C f s s1 r Hp Ht.
  unfold requireHook. rewrite Hp. unfold bind at 1. rewrite Ht.
  unfold_m. destruct (pl [VString f] (user s1)) as [[v | e] u2]; reflexivity.
Qed.

(** A transformer that throws anything but [undefined] or [null]: after the
    diagnostic lines the post-load hook is called with the file name, and the
    callback hands the original code back to the loader. *)
Lemma requireHook_fallback_reaches_postLoadHook :
  forall (hk : pirates_hook) (h pl : jsfun) (C : value) (f : string)
         (s : state) (ex : value) (u1 : U),
    ph_transformer hk = Fn h ->
    ph_postLoadHook hk = Some pl ->
    h [C; VString f] (user s) = (Throw ex, u1) ->
    nullish ex = false ->
    let s1 := log_diagnostic (VString f) ex
                (set_user u1 (emit (CallTransformer [C; VString f])
                                (verbose_log (ph_verbose hk) (VString f) s))) in
    requireHook hk C f s =
      (call_postLoadHook pl [VString f] ;; ret C) s1.
Proof.
  intros hk h pl C f s ex u1 Ht Hp Hh Hex s1.
  unfold requireHook. rewrite Ht, Hp. unfold bind at 1.
  rewrite (transformFn_fallback h _ C (VString f) s ex u1 Hh Hex).
  fold s1. unfold_m. destruct (pl [VString f] (user s1)) as [[r | e] u2];
    reflexivity.
Qed.

(** With one hook installed and a matcher that turns the file down, the
    loader compiles the file's own text and the post-load hook is not
    called. *)
Lemma load_unmatched_skips_postLoadHook :
  forall (g : jsfun) (t : arg) (o : option options) (f : string) (c : value)
         (r : require_env) (u : U) (rv : value) (u1 : U),
    g [VString (path_resolve f)] u = (Normal rv, u1) ->
    truthy rv = false ->
    postLoadHook_calls
      (trace (final ((hookRequire (Fn g) t o ;; load f c) (module_loaded r u)))) = []
    /\ transformer_calls
         (trace (final ((hookRequire (Fn g) t o ;; load f c) (module_loaded r u)))) = [].
Proof.
  intros g t o f c r u rv u1 Hg Hrv.
  assert (E : trace (final ((hookRequire (Fn g) t o ;; load f c) (module_loaded r u)))
              = [CallMatcher [VString (path_resolve f)]; Compile c f]
              \/ trace (final ((hookRequire (Fn g) t o ;; load f c) (module_loaded r u)))
              = [Compile c f]).
  { unfold bind at 1 2. rewrite hookRequire_run.
    unfold load, final, module_loaded. unfold_m.
    cbn [app rev select_hooks installed_hook ph_reverted].
    unfold shouldCompile.
    destruct (existsb (String.eqb (path_extname f))
                (ph_exts (installed_hook (Fn g) t o)));
      cbn [negb];
      [ destruct (nodeModulesRegex_test (path_resolve f)) | ];
      cbn [installed_hook ph_matcher arg_truthy is_function andb];
      unfold_m; try rewrite Hg; try rewrite Hrv; cbn [run_compile app];
      unfold_m;
      match goal with
      | |- context [native_compile ?a ?b ?x] =>
          destruct (native_compile a b x) as [? ?]
      end; cbn [snd]; proj_state; auto. }
  destruct E as [E | E]; rewrite E; split; reflexivity.
Qed.

(** ** Further properties of the transform step *)

Lemma console_only_no_calls :
  forall (es : list event),
    forallb is_ConsoleError es = true ->
    transformer_calls es = [] /\ postLoadHook_calls es = [].
Proof.
  induction es as [| e es IH]; intros H; [split; reflexivity |].
  cbn [forallb] in H. apply andb_true_iff in H. destruct H as (He & Hes).
  destruct (IH Hes) as (IH1 & IH2).
  destruct e; try discriminate He.
  unfold transformer_calls, postLoadHook_calls in *. cbn [filter is_CallTransformer
    is_CallPostLoadHook]. split; assumption.
Qed.

Lemma verbose_line_console_only :
  forall v F, forallb is_ConsoleError (verbose_line v F) = true.
Proof. intros v F. unfold verbose_line. destruct (truthy v); reflexivity. Qed.

(** The shape of every run of the transform step. *)
Lemma transformFn_shape :
  forall (t : arg) (v C F : value) (s : state),
    exists rest,
      trace (final (transformFn t v C F s)) =
        (trace s ++ verbose_line v F ++
         (if is_function t then [CallTransformer [C; F]] else []) ++ rest)%list
      /\ forallb is_ConsoleError rest = true.
Proof.
  intros t v C F s.
  unfold transformFn, verbose_line, final. unfold_m.
  destruct t as [h | x]; destruct (truthy v); proj_state;
    try (destruct (h [C; F] (user s)) as [[c' | ex] u']; [ | destruct ex ]);
    cbn [get_prop TypeError is_function]; unfold_m;
    repeat match goal with
           | |- context [if String.eqb ?a ?b then _ else _] =>
               destruct (String.eqb a b)
           end;
    proj_state; rewrite <- ?app_assoc; cbn [app];
    eexists; (split; [reflexivity | reflexivity]).
Qed.

(** X2. A run of the transform step with a transformer that is a function
    calls it exactly once, with the code and the file name the step was
    given, after the [verbose] line if there is one; whatever else the step
    writes goes to the error stream.  A transformer that is not a function
    is not called. *)
Theorem transformFn_calls_transformer_once :
  forall (h : jsfun) (x v C F : value) (s : state),
    transformer_calls (trace (final (transformFn (Fn h) v C F s))) =
      (transformer_calls (trace s) ++ [CallTransformer [C; F]])%list
    /\ (exists rest,
          trace (final (transformFn (Fn h) v C F s)) =
            (trace s ++ verbose_line v F ++ CallTransformer [C; F] :: rest)%list
          /\ forallb is_ConsoleError rest = true)
    /\ transformer_calls (trace (final (transformFn (Val x) v C F s))) =
         transformer_calls (trace s).
Proof.
  intros h x v C F s.
  destruct (console_only_no_calls _ (verbose_line_console_only v F)) as (E1 & _).
  split; [| split].
  - destruct (transformFn_shape (Fn h) v C F s) as (rest & Ht & Hrest).
    destruct (console_only_no_calls _ Hrest) as (E2 & _).
    rewrite Ht. cbn [is_function]. rewrite !transformer_calls_app, E1, E2.
    cbn [app]. rewrite app_nil_r. reflexivity.
  - destruct (transformFn_shape (Fn h) v C F s) as (rest & Ht & Hrest).
    exists rest. split; [exact Ht | exact Hrest].
  - destruct (transformFn_shape (Val x) v C F s) as (rest & Ht & Hrest).
    destruct (console_only_no_calls _ Hrest) as (E2 & _).
    rewrite Ht. cbn [is_function]. rewrite !transformer_calls_app, E1, E2.
    cbn [app]. rewrite app_nil_r. reflexivity.
Qed.

(** X4. A transformer that is not a function: no call is made, the
    [TypeError] "transformer is not a function" raised inside the [try]
    block is reported by the three diagnostic lines, and the step returns the
    original code with [changed = false]. *)
Theorem transformFn_transformer_not_callable :
  forall (x v C F : value) (s : state),
    transformFn (Val x) v C F s =
      (Normal {| code := C; changed := false |},
       log_diagnostic F (TypeError "transformer is not a function")
         (verbose_log v F s)).
Proof.
  intros x v C F s.
  unfold transformFn, verbose_log, log_diagnostic. unfold_m.
  destruct (truthy v); reflexivity.
Qed.

(** X1. An exception thrown by the matcher leaves the patched entry point as
    it is: neither the transformer nor the captured original is called.  With
    a matcher that is not a function, a call with a string file name raises
    the [TypeError] "matcher is not a function" and nothing is called at
    all. *)
Theorem matcher_exception_propagates :
  forall (g : jsfun) (t : arg) (v C : value) (f : string) (s : state)
         (ex : value) (u1 : U) (x : value),
    (g [VString (path_resolve f)] (user s) = (Throw ex, u1) ->
     createScript_replacement (Fn g) t v C (VString f) s =
       (Throw ex, set_user u1 (emit (CallMatcher [VString (path_resolve f)]) s))
     /\ runInThisContext_replacement (Fn g) t v C (VString f) s =
          (Throw ex, set_user u1 (emit (CallMatcher [VString (path_resolve f)]) s)))
    /\ createScript_replacement (Val x) t v C (VString f) s =
         (Throw (TypeError "matcher is not a function"), s)
    /\ runInThisContext_replacement (Val x) t v C (VString f) s =
         (Throw (TypeError "matcher is not a function"), s).
Proof.
  intros g t v C f s ex u1 x. split; [| split; reflexivity].
  intros Hg.
  unfold createScript_replacement, runInThisContext_replacement, shouldHook.
  unfold_m. rewrite Hg. split; reflexivity.
Qed.

(** X3. When the matcher accepts the file and the transformer throws a
    boolean, a string, a safe integer or an [Error] instance, the patched
    entry points write the three diagnostic lines and call the captured
    original with the original code. *)
Theorem replacement_falls_back_to_original_code :
  forall (g h : jsfun) (v C : value) (f : string) (s : state)
         (r : value) (u1 : U) (ex : value) (u2 : U),
    g [VString (path_resolve f)] (user s) = (Normal r, u1) ->
    truthy r = true ->
    h [C; VString f] u1 = (Throw ex, u2) ->
    plain_thrown ex = true ->
    let s1 := set_user u1 (emit (CallMatcher [VString (path_resolve f)]) s) in
    let s2 := log_diagnostic (VString f) ex
                (set_user u2 (emit (CallTransformer [C; VString f])
                                (verbose_log v (VString f) s1))) in
    createScript_replacement (Fn g) (Fn h) v C (VString f) s =
      originalCreateScript C (VString f) s2
    /\ runInThisContext_replacement (Fn g) (Fn h) v C (VString f) s =
         originalRunInThisContext C (VString f) s2.
Proof.
  intros g h v C f s r u1 ex u2 Hg Hr Hh Hex s1 s2.
  assert (Hn : nullish ex = false) by (destruct ex; try discriminate Hex; reflexivity).
  assert (Ht : transformFn (Fn h) v C (VString f) s1 =
               (Normal {| code := C; changed := false |}, s2)).
  { apply transformFn_fallback; assumption. }
  unfold createScript_replacement, runInThisContext_replacement, shouldHook.
  unfold_m. rewrite Hg, Hr. cbn [negb]. fold s1. rewrite Ht. split; reflexivity.
Qed.

(** ** Further properties of the module hooks *)




(** X6. Once the transform step has returned, the value returned by the
    post-load hook is ignored and the callback returns the code of the
    transform result; an exception thrown by the post-load hook is not
    caught and leaves the callback. *)
Theorem postLoadHook_result_ignored_exception_propagates :
  forall (hk : pirates_hook) (pl : jsfun) (C : value) (f : string)
         (s s1 : state) (r : transformResult) (u2 : U) (rv ex : value),
    ph_postLoadHook hk = Some pl ->
    transformFn (ph_transformer hk) (ph_verbose hk) C (VString f) s =
      (Normal r, s1) ->
    (pl [VString f] (user s1) = (Normal rv, u2) ->
     requireHook hk C f s =
       (Normal (code r), set_user u2 (emit (CallPostLoadHook [VString f]) s1)))
    /\ (pl [VString f] (user s1) = (Throw ex, u2) ->
         requireHook hk C f s =
           (Throw ex, set_user u2 (emit (CallPostLoadHook [VString f]) s1))).
Proof.
  intros hk pl C f s s1 r u2 rv ex Hp Ht.
  rewrite (requireHook_after_transform hk pl C f s s1 r Hp Ht).
  unfold_m. split; intros Hpl; rewrite Hpl; reflexivity.
Qed.

Lemma hookRequire_all_frame :
  forall (installs : list install) (s : state),
    vm_createScript (final (hookRequire_all installs s)) = vm_createScript s
    /\ vm_runInThisContext (final (hookRequire_all installs s)) =
         vm_runInThisContext s
    /\ require_ (final (hookRequire_all installs s)) = require_ s
    /\ user (final (hookRequire_all installs s)) = user s
    /\ length (pirates_hooks (final (hookRequire_all installs s))) =
         length (pirates_hooks s) + length installs.
Proof.
  induction installs as [| i rest IH]; intros s.
  - cbn. rewrite Nat.add_0_r. repeat split; reflexivity.
  - assert (E : hookRequire_all (i :: rest) s =
                hookRequire_all rest
                  (set_reverts (reverts s ++ [length (pirates_hooks s)])
                     (set_pirates_hooks
                        (pirates_hooks s ++
                         [installed_hook (fst (fst i)) (snd (fst i)) (snd i)]) s))).
    { unfold hookRequire_all. cbn [forEach]. unfold bind at 1.
      rewrite hookRequire_run. reflexivity. }
    rewrite E.
    match goal with
    | |- context [hookRequire_all rest ?s0] =>
        destruct (IH s0) as (H1 & H2 & H3 & H4 & H5)
    end.
    rewrite H1, H2, H3, H4, H5. proj_state. rewrite length_app. cbn [length].
    repeat split; lia.
Qed.

Lemma unhookRequire_run :
  forall (s : state),
    unhookRequire s =
      (Normal tt,
       {| vm_createScript := vm_createScript s;
          vm_runInThisContext := vm_runInThisContext s;
          reverts := [];
          pirates_hooks :=
            fold_left (fun hooks handle => revert_nth handle hooks)
              (reverts s) (pirates_hooks s);
          require_ := require_ s;
          user := user s;
          trace := trace s ++ map CallRevert (reverts s) |}).
Proof.
  intros s. unfold unhookRequire. unfold_m. rewrite forEach_call_revert.
  reflexivity.
Qed.

Lemma revert_nth_length :
  forall (hooks : list pirates_hook) (handle : nat),
    length (revert_nth handle hooks) = length hooks.
Proof.
  induction hooks as [| h rest IH]; intros [| n]; cbn [revert_nth length];
    try reflexivity.
  rewrite IH. reflexivity.
Qed.

Lemma fold_revert_length :
  forall (handles : list nat) (hooks : list pirates_hook),
    length (fold_left (fun hs handle => revert_nth handle hs) handles hooks) =
    length hooks.
Proof.
  induction handles as [| h rest IH]; intros hooks; cbn [fold_left];
    [reflexivity |].
  rewrite IH. apply revert_nth_length.
Qed.

(** X7. After any number of [hookRequire] installs followed by
    [unhookRequire], loading a file consults no matcher, calls no transformer
    and no post-load hook, and compiles the file's own text. *)
Theorem load_after_unhookRequire_is_unhooked :
  forall (installs : list install) (r : require_env) (u : U)
         (f : string) (c : value),
    trace (final (load f c
             (final ((hookRequire_all installs ;; unhookRequire)
                       (module_loaded r u))))) =
      (map CallRevert (seq 0 (length installs)) ++ [Compile c f])%list.
Proof.
  intros installs r u f c.
  rewrite unhookRequire_restores_loader.
  destruct (hookRequire_all_reverts installs (module_loaded r u))
    as (Ho & Hr & _ & Ht).
  unfold bind. unfold outcome, final in *.
  destruct (hookRequire_all installs (module_loaded r u)) as [[[] | ex] s1];
    cbn [fst snd] in *; try discriminate Ho.
  rewrite unhookRequire_run. cbn [snd run_compile]. unfold_m.
  match goal with
  | |- context [native_compile ?a ?b ?x] =>
      destruct (native_compile a b x) as [? ?]
  end.
  cbn [snd]. proj_state. rewrite Ht, Hr. reflexivity.
Qed.

Lemma bind_assoc :
  forall (A B C : Type) (m : M A) (k1 : A -> M B) (k2 : B -> M C) (s : state),
    bind m (fun x => bind (k1 x) k2) s = bind (bind m k1) k2 s.
Proof.
  intros A B C m k1 k2 s. unfold bind. destruct (m s) as [[a | ex] s1]; reflexivity.
Qed.

(** One round: installs, then [unhookRequire]. *)
Lemma install_round :
  forall (installs : list install) (s : state),
    reverts s = [] ->
    exists s',
      (hookRequire_all installs ;; unhookRequire) s = (Normal tt, s')
      /\ trace s' =
           (trace s ++
            map CallRevert (seq (length (pirates_hooks s)) (length installs)))%list
      /\ reverts s' = []
      /\ length (pirates_hooks s') = length (pirates_hooks s) + length installs.
Proof.
  intros installs s Hs.
  destruct (hookRequire_all_reverts installs s) as (Ho & Hr & _ & Ht).
  destruct (hookRequire_all_frame installs s) as (_ & _ & _ & _ & Hl).
  unfold bind. unfold outcome, final in *.
  destruct (hookRequire_all installs s) as [[[] | ex] s1];
    cbn [fst snd] in *; try discriminate Ho.
  rewrite unhookRequire_run. eexists. split; [reflexivity |].
  proj_state. rewrite fold_revert_length, Ht, Hr, Hs, Hl. cbn [app].
  repeat split.
Qed.

(** X8. Revert handles are called once: after a first round of installs and
    [unhookRequire], a second round of installs and [unhookRequire] calls the
    handles of the second round only, so that over the whole run every handle
    has been called exactly once, in registration order. *)
Theorem revert_handles_called_once :
  forall (round1 round2 : list install) (r : require_env) (u : U),
    trace (final ((hookRequire_all round1 ;; unhookRequire ;;
                   hookRequire_all round2 ;; unhookRequire)
                    (module_loaded r u))) =
      (map CallRevert (seq 0 (length round1)) ++
       map CallRevert (seq (length round1) (length round2)))%list
    /\ reverts (final ((hookRequire_all round1 ;; unhookRequire ;;
                        hookRequire_all round2 ;; unhookRequire)
                         (module_loaded r u))) = [].
Proof.
  intros round1 round2 r u.
  destruct (install_round round1 (module_loaded r u) eq_refl)
    as (s1 & Hrun1 & Ht1 & Hr1 & Hl1).
  destruct (install_round round2 s1 Hr1) as (s2 & Hrun2 & Ht2 & Hr2 & _).
  assert (E : (hookRequire_all round1 ;; unhookRequire ;;
               hookRequire_all round2 ;; unhookRequire) (module_loaded r u) =
              (Normal tt, s2)).
  { rewrite bind_assoc. unfold bind at 1. rewrite Hrun1. exact Hrun2. }
  rewrite E. unfold final. cbn [snd]. rewrite Ht2, Ht1, Hl1.
  split; [reflexivity | exact Hr2].
Qed.

(** ** Further properties of the module cache *)

Lemma forEach_app :
  forall (A : Type) (xs ys : list A) (f : A -> M unit) (s : state),
    forEach (xs ++ ys) f s = (forEach xs f ;; forEach ys f) s.
Proof.
  induction xs as [| x xs IH]; intros ys f s.
  - reflexivity.
  - cbn [app forEach]. rewrite <- bind_assoc. unfold bind.
    destruct (f x s) as [[[] | ex] s1]; [| reflexivity].
    pose proof (IH ys f s1) as E. unfold bind in E. exact E.
Qed.

(** The pass of [unloadRequireCache] over the keys, from its start. *)
Lemma unloadRequireCache_run :
  forall (g : jsfun) (p : string -> value) (s : state)
         (cache : list (string * module_)),
    (forall k u, In k (map fst cache) ->
                 exists u', g [VString k] u = (Normal (p k), u')) ->
    require_ s = RequireFn (Some cache) ->
    exists s',
      unloadRequireCache (Fn g) s = (Normal tt, s')
      /\ require_ s' =
           RequireFn (Some (filter (fun e => negb (truthy (p (fst e)))) cache))
      /\ trace s' = (trace s ++ matcher_calls_on (map fst cache))%list.
Proof.
  intros g p s cache Hp Hc.
  destruct (unload_loop g p (map fst cache) s cache Hp Hc)
    as (s' & Hrun & Hreq & _ & _ & _ & _ & Ht).
  exists s'. split; [| split].
  - unfold unloadRequireCache. unfold bind at 1. unfold get at 1.
    cbn [arg_truthy]. rewrite Hc. exact Hrun.
  - rewrite Hreq, evicted_all_keys. reflexivity.
  - exact Ht.
Qed.

(** X9. [unloadRequireCache] calls the matcher once for every key that is in
    the cache when the call starts, in the order of the keys and on the key
    as it is stored (it is not resolved again); keys evicted earlier in the
    pass do not change the keys visited later. *)
Theorem unloadRequireCache_visits_each_key_once :
  forall (g : jsfun) (p : string -> value) (s : state)
         (cache : list (string * module_)),
    (forall k u, In k (map fst cache) ->
                 exists u', g [VString k] u = (Normal (p k), u')) ->
    require_ s = RequireFn (Some cache) ->
    trace (final (unloadRequireCache (Fn g) s)) =
      (trace s ++ map (fun k => CallMatcher [VString k]) (map fst cache))%list.
Proof.
  intros g p s cache Hp Hc.
  destruct (unloadRequireCache_run g p s cache Hp Hc) as (s' & Hrun & _ & Ht).
  rewrite Hrun. exact Ht.
Qed.

(** X10. [unloadRequireCache] is idempotent for a matcher whose verdict
    depends on the key only: a second call with the same matcher returns and
    leaves the cache as the first call left it. *)
Theorem unloadRequireCache_idempotent :
  forall (g : jsfun) (p : string -> value) (s : state)
         (cache : list (string * module_)),
    (forall k u, In k (map fst cache) ->
                 exists u', g [VString k] u = (Normal (p k), u')) ->
    require_ s = RequireFn (Some cache) ->
    outcome ((unloadRequireCache (Fn g) ;; unloadRequireCache (Fn g)) s) = Normal tt
    /\ cache_of (final ((unloadRequireCache (Fn g) ;; unloadRequireCache (Fn g)) s)) =
         cache_of (final (unloadRequireCache (Fn g) s)).
Proof.
  intros g p s cache Hp Hc.
  destruct (unloadRequireCache_run g p s cache Hp Hc) as (s1 & Hrun1 & Hreq1 & _).
  assert (Hp' : forall k u,
            In k (map fst (filter (fun e => negb (truthy (p (fst e)))) cache)) ->
            exists u', g [VString k] u = (Normal (p k), u')).
  { intros k u Hin. apply Hp. apply in_map_iff in Hin.
    destruct Hin as (e & He & Hin). apply filter_In in Hin.
    apply in_map_iff. exists e. split; [exact He | apply Hin]. }
  destruct (unloadRequireCache_run g p s1 _ Hp' Hreq1) as (s2 & Hrun2 & Hreq2 & _).
  unfold bind. rewrite Hrun1, Hrun2. unfold outcome, final, cache_of. cbn [fst snd].
  rewrite Hreq2, Hreq1. split; [reflexivity |].
  rewrite filter_filter. f_equal. apply filter_ext. intros e.
  destruct (truthy (p (fst e))); reflexivity.
Qed.

(** X11. When the matcher throws on a key, [unloadRequireCache] stops there
    and the exception reaches the caller: the entries the matcher accepted
    before that key are already evicted, every other entry, whether the
    matcher would have accepted it or not, is still cached. *)
Theorem unloadRequireCache_matcher_throws :
  forall (g : jsfun) (p : string -> value) (s : state)
         (cache : list (string * module_))
         (before : list string) (k : string) (after : list string) (ex : value),
    require_ s = RequireFn (Some cache) ->
    map fst cache = (before ++ k :: after)%list ->
    (forall k0 u, In k0 before ->
                  exists u', g [VString k0] u = (Normal (p k0), u')) ->
    (forall u, exists u', g [VString k] u = (Throw ex, u')) ->
    outcome (unloadRequireCache (Fn g) s) = Throw ex
    /\ cache_of (final (unloadRequireCache (Fn g) s)) =
         Some (filter (fun e => negb (evicted p before e)) cache)
    /\ trace (final (unloadRequireCache (Fn g) s)) =
         (trace s ++ matcher_calls_on (before ++ [k]))%list.
Proof.
  intros g p s cache before k after ex Hc Hkeys Hp Hk.
  destruct (unload_loop g p before s cache Hp Hc)
    as (s1 & Hrun & Hreq & _ & _ & _ & _ & Ht).
  destruct (Hk (user s1)) as (u' & Hthrow).
  assert (E : unloadRequireCache (Fn g) s =
              (Throw ex, set_user u' (emit (CallMatcher [VString k]) s1))).
  { unfold unloadRequireCache. unfold bind at 1. unfold get at 1.
    cbn [arg_truthy]. rewrite Hc, Hkeys, forEach_app.
    unfold bind at 1. rewrite Hrun. cbn [forEach]. unfold_m.
    rewrite Hthrow. reflexivity. }
  rewrite E. unfold outcome, final, cache_of. cbn [fst snd]. proj_state.
  rewrite Hreq, Ht. unfold matcher_calls_on. rewrite map_app, app_assoc.
  repeat split.
Qed.

(** X12. A matcher that is truthy but not a function: with an empty cache
    the call is a no-op, otherwise the attempt to call it on the first key
    raises the [TypeError] "matcher is not a function"; no call is made and
    the cache is left whole. *)
Theorem unloadRequireCache_matcher_not_callable :
  forall (x : value) (s : state) (k : string) (m : module_)
         (rest : list (string * module_)),
    truthy x = true ->
    (require_ s = RequireFn (Some []) ->
     unloadRequireCache (Val x) s = (Normal tt, s))
    /\ (require_ s = RequireFn (Some ((k, m) :: rest)) ->
         unloadRequireCache (Val x) s =
           (Throw (TypeError "matcher is not a function"), s)).
Proof.
  intros x s k m rest Hx.
  unfold unloadRequireCache. unfold_m. cbn [arg_truthy]. rewrite Hx.
  split; intros Hc; rewrite Hc; reflexivity.
Qed.

(** ** How the hooks compose *)

(** X13. The three families of hooks are independent of each other: the two
    script installs commute, removing one script hook leaves the other
    installed, [unhookRequire] leaves both script hooks installed, and the
    script unhooks leave the recorded revert handles as they are. *)
Theorem hook_families_are_independent :
  forall (m t : arg) (o : option options) (m' t' : arg) (o' : option options)
         (installs : list install) (s : state),
    (hookCreateScript m t o ;; hookRunInThisContext m' t' o') s =
      (hookRunInThisContext m' t' o' ;; hookCreateScript m t o) s
    /\ vm_runInThisContext
         (final ((hookCreateScript m t o ;; hookRunInThisContext m' t' o' ;;
                  unhookCreateScript) s)) =
         Replacement m' t' (verbose (options_or_empty o'))
    /\ vm_createScript
         (final ((hookCreateScript m t o ;; hookRunInThisContext m' t' o' ;;
                  unhookRunInThisContext) s)) =
         Replacement m t (verbose (options_or_empty o))
    /\ vm_createScript
         (final ((hookCreateScript m t o ;; hookRequire_all installs ;;
                  unhookRequire) s)) =
         Replacement m t (verbose (options_or_empty o))
    /\ reverts
         (final ((hookRequire_all installs ;; unhookCreateScript ;;
                  unhookRunInThisContext) s)) =
         reverts (final (hookRequire_all installs s)).
Proof.
  intros m t o m' t' o' installs s.
  split; [reflexivity | split; [reflexivity | split; [reflexivity | split]]].
  - unfold bind at 1. unfold hookCreateScript at 1. unfold modify at 1.
    match goal with
    | |- context [(hookRequire_all installs ;; unhookRequire) ?s0] =>
        destruct (hookRequire_all_reverts installs s0) as (Ho & _);
        destruct (hookRequire_all_frame installs s0) as (Hv & _);
        revert Ho Hv; unfold bind, outcome, final;
        destruct (hookRequire_all installs s0) as [[[] | ex] s1]
    end; cbn [fst snd]; intros Ho Hv; try discriminate Ho.
    rewrite unhookRequire_run. cbn [snd]. proj_state. exact Hv.
  - destruct (hookRequire_all_reverts installs s) as (Ho & _).
    revert Ho. unfold bind, outcome, final.
    destruct (hookRequire_all installs s) as [[[] | ex] s1]; cbn [fst snd];
      intros Ho; try discriminate Ho. reflexivity.
Qed.

(** ** Further properties of the patched loader *)

(** X15. The module hook applies to the configured extensions only, [.js]
    when the [extensions] option is absent: a file with another extension is
    compiled as it is and the matcher is not consulted. *)
Theorem load_other_extension_is_not_hooked :
  forall (m t : arg) (o : option options) (f : string) (c : value)
         (r : require_env) (u : U),
    existsb (String.eqb (path_extname f))
      (match extensions (options_or_empty o) with
       | Some e => e
       | None => [".js"]
       end) = false ->
    trace (final ((hookRequire m t o ;; load f c) (module_loaded r u))) =
      [Compile c f].
Proof.
  intros m t o f c r u Hext.
  unfold bind at 1. rewrite hookRequire_run.
  unfold load, final, module_loaded. unfold_m.
  cbn [app rev select_hooks installed_hook ph_reverted].
  unfold shouldCompile. cbn [ph_exts installed_hook]. rewrite Hext. cbn [negb].
  unfold_m. cbn [run_compile]. unfold_m.
  match goal with
  | |- context [native_compile ?a ?b ?x] =>
      destruct (native_compile a b x) as [? ?]
  end. reflexivity.
Qed.

(** X16. With one module hook installed, loading a file of a configured
    extension outside [node_modules] that the matcher accepts: the matcher
    sees the resolved path, the transformer the code and the file name, the
    post-load hook is called after the transformer, and the loader compiles
    the string the transformer returned. *)
Theorem load_matched_compiles_transformed_code :
  forall (g h pl : jsfun) (o : options) (f : string) (c : value)
         (r : require_env) (u : U)
         (rv : value) (u1 : U) (c' : string) (u2 : U) (pv : value) (u3 : U),
    existsb (String.eqb (path_extname f))
      (match extensions o with Some e => e | None => [".js"] end) = true ->
    nodeModulesRegex_test (path_resolve f) = false ->
    postLoadHook o = Fn pl ->
    g [VString (path_resolve f)] u = (Normal rv, u1) ->
    truthy rv = true ->
    h [c; VString f] u1 = (Normal (VString c'), u2) ->
    pl [VString f] u2 = (Normal pv, u3) ->
    trace (final ((hookRequire (Fn g) (Fn h) (Some o) ;; load f c)
                    (module_loaded r u))) =
      ([CallMatcher [VString (path_resolve f)]] ++
       verbose_line (verbose o) (VString f) ++
       [CallTransformer [c; VString f]; CallPostLoadHook [VString f];
        Compile (VString c') f])%list.
Proof.
  intros g h pl o f c r u rv u1 c' u2 pv u3 Hext Hnm Hpl Hg Hrv Hh Hp.
  unfold bind at 1. rewrite hookRequire_run.
  unfold load, final, module_loaded. unfold_m.
  cbn [app rev select_hooks installed_hook ph_reverted options_or_empty].
  unfold shouldCompile.
  cbn [ph_exts ph_matcher installed_hook options_or_empty arg_truthy
       is_function andb].
  rewrite Hext, Hnm. cbn [negb]. unfold_m. rewrite Hg, Hrv.
  cbn [app run_compile]. unfold requireHook.
  cbn [ph_transformer ph_verbose ph_postLoadHook installed_hook options_or_empty].
  rewrite Hpl.
  unfold bind at 1. unfold bind at 1.
  rewrite (transformFn_success h _ c (VString f) _ (VString c') u2)
    by (proj_state; exact Hh).
  unfold_m. unfold verbose_log, verbose_line.
  destruct (truthy (verbose o)); proj_state; rewrite Hp;
    cbn [code is_string]; proj_state;
    match goal with
    | |- context [native_compile ?a ?b ?x] =>
        destruct (native_compile a b x) as [? ?]
    end; reflexivity.
Qed.

End Properties.

(** * The properties on the concrete host *)

(** C1. A transformer that throws [null] on a matched file: the [catch]
    block of [transformFn] writes its first diagnostic line, then reading
    [ex.message] raises a [TypeError]; the transform step returns no
    [{code, changed}] at all, the error reaches the caller of the patched
    [vm.createScript], and the captured original is never called. *)
Theorem transformFn_null_exception_escapes :
  outcome (@transformFn demo_host (Fn nullTransformer) VUndefined
             (VString "x=1") (VString "/a/foo.js") demo_loaded) =
    Throw (VError "TypeError" "Cannot read property 'message' of null"
             "TypeError: Cannot read property 'message' of null")
  /\ outcome ((hookCreateScript (Fn fooMatcher) (Fn nullTransformer) None ;;
               vm_createScript_call (VString "x=1") (VString "/a/foo.js"))
                demo_loaded) =
       Throw (VError "TypeError" "Cannot read property 'message' of null"
                "TypeError: Cannot read property 'message' of null")
  /\ trace (final ((hookCreateScript (Fn fooMatcher) (Fn nullTransformer) None ;;
                    vm_createScript_call (VString "x=1") (VString "/a/foo.js"))
                     demo_loaded)) =
       [CallMatcher [VString "/a/foo.js"];
        CallTransformer [VString "x=1"; VString "/a/foo.js"];
        ConsoleError [VString "Transformation error for"; VString "/a/foo.js";
                      VString "; return original code"]].
Proof. repeat split; vm_compute; reflexivity. Qed.

(** The same hook with a transformer that throws an [Error]: the original
    code reaches the captured [vm.createScript] after three diagnostic
    lines. *)
Example transformFn_error_falls_back :
  trace (final ((hookCreateScript (Fn fooMatcher) (Fn boomTransformer) None ;;
                 vm_createScript_call (VString "x=1") (VString "/a/foo.js"))
                  demo_loaded)) =
    [CallMatcher [VString "/a/foo.js"];
     CallTransformer [VString "x=1"; VString "/a/foo.js"];
     ConsoleError [VString "Transformation error for"; VString "/a/foo.js";
                   VString "; return original code"];
     ConsoleError [VString "boom"];
     ConsoleError [VString "Error: boom at transformer"];
     CallOriginalCreateScript (VString "x=1") (VString "/a/foo.js")].
Proof. vm_compute; reflexivity. Qed.

(** C4. With [hookRequire] installed with a [postLoadHook], loading a file
    the matcher turns down compiles the file's own text and does not call the
    post-load hook; loading a file the matcher accepts does call it. *)
Theorem postLoadHook_not_called_for_unmatched_file :
  trace (final ((hookRequire (Fn fooMatcher) (Fn logTransformer)
                   (Some postLoad_options) ;;
                 load "/a/bar.js" (VString "x=1")) demo_loaded)) =
    [CallMatcher [VString "/a/bar.js"]; Compile (VString "x=1") "/a/bar.js"]
  /\ postLoadHook_calls
       (trace (final ((hookRequire (Fn fooMatcher) (Fn logTransformer)
                         (Some postLoad_options) ;;
                       load "/a/bar.js" (VString "x=1")) demo_loaded))) = []
  /\ trace (final ((hookRequire (Fn fooMatcher) (Fn logTransformer)
                      (Some postLoad_options) ;;
                    load "/a/foo.js" (VString "x=1")) demo_loaded)) =
       [CallMatcher [VString "/a/foo.js"];
        CallTransformer [VString "x=1"; VString "/a/foo.js"];
        CallPostLoadHook [VString "/a/foo.js"];
        Compile (VString "LOG();x=1") "/a/foo.js"].
Proof. repeat split; vm_compute; reflexivity. Qed.

(** C9. With [hookRequire] installed with a [postLoadHook] and a transformer
    that throws [null], loading a matched file ends in the [TypeError] raised
    by the [catch] block of the transform step, before the post-load hook is
    reached; with a transformer that throws an [Error] the post-load hook is
    called after the diagnostic lines. *)
Theorem postLoadHook_skipped_when_null_is_thrown :
  outcome ((hookRequire (Fn fooMatcher) (Fn nullTransformer)
              (Some postLoad_options) ;;
            load "/a/foo.js" (VString "x=1")) demo_loaded) =
    Throw (VError "TypeError" "Cannot read property 'message' of null"
             "TypeError: Cannot read property 'message' of null")
  /\ postLoadHook_calls
       (trace (final ((hookRequire (Fn fooMatcher) (Fn nullTransformer)
                         (Some postLoad_options) ;;
                       load "/a/foo.js" (VString "x=1")) demo_loaded))) = []
  /\ trace (final ((hookRequire (Fn fooMatcher) (Fn boomTransformer)
                      (Some postLoad_options) ;;
                    load "/a/foo.js" (VString "x=1")) demo_loaded)) =
       [CallMatcher [VString "/a/foo.js"];
        CallTransformer [VString "x=1"; VString "/a/foo.js"];
        ConsoleError [VString "Transformation error for"; VString "/a/foo.js";
                      VString "; return original code"];
        ConsoleError [VString "boom"];
        ConsoleError [VString "Error: boom at transformer"];
        CallPostLoadHook [VString "/a/foo.js"];
        Compile (VString "x=1") "/a/foo.js"].
Proof. repeat split; vm_compute; reflexivity. Qed.

(** Two module hooks, a load, [unhookRequire], a second load: the handles
    are called in registration order and the second load compiles the file's
    own text. *)
Example unhookRequire_then_load_is_unmodified :
  trace (final ((hookRequire (Fn fooMatcher) (Fn logTransformer) None ;;
                 hookRequire (Fn fooMatcher) (Fn otherTransformer) None ;;
                 load "/a/foo.js" (VString "x=1") ;;
                 unhookRequire ;;
                 load "/a/foo.js" (VString "x=1")) demo_loaded)) =
    [CallMatcher [VString "/a/foo.js"]; CallMatcher [VString "/a/foo.js"];
     CallTransformer [VString "x=1"; VString "/a/foo.js"];
     CallTransformer [VString "LOG();x=1"; VString "/a/foo.js"];
     Compile (VString "OTHER();LOG();x=1") "/a/foo.js";
     CallRevert 0; CallRevert 1;
     Compile (VString "x=1") "/a/foo.js"].
Proof. vm_compute; reflexivity. Qed.

(** ** Instances of the conditional theorems *)

Lemma replacement_passes_transformed_code_witness :
  fooMatcher [VString (@path_resolve demo_host "/a/foo.js")] 0%nat =
    (Normal (VBool true), 1%nat)
  /\ logTransformer [VString "x=1"; VString "/a/foo.js"] 1%nat =
       (Normal (VString "LOG();x=1"), 2%nat)
  /\ trace (final ((hookCreateScript (Fn fooMatcher) (Fn logTransformer) None ;;
                    vm_createScript_call (VString "x=1") (VString "/a/foo.js"))
                     demo_loaded)) =
       [CallMatcher [VString "/a/foo.js"];
        CallTransformer [VString "x=1"; VString "/a/foo.js"];
        CallOriginalCreateScript (VString "LOG();x=1") (VString "/a/foo.js")].
Proof.
  split; [reflexivity | split; [reflexivity |]].
  apply (@replacement_passes_transformed_code demo_host fooMatcher logTransformer
           None (VString "x=1") "/a/foo.js" demo_loaded
           (VBool true) 1%nat (VString "LOG();x=1") 2%nat);
    reflexivity.
Defined.

Lemma replacement_delegates_when_rejected_witness :
  rejected (Fn fooMatcher) (VString "/a/bar.js") demo_loaded
    (@set_user demo_host 1%nat (emit (CallMatcher [VString "/a/bar.js"]) demo_loaded))
  /\ createScript_replacement (Fn fooMatcher) (Fn logTransformer) VUndefined
       (VString "x=1") (VString "/a/bar.js") demo_loaded =
     originalCreateScript (VString "x=1") (VString "/a/bar.js")
       (@set_user demo_host 1%nat (emit (CallMatcher [VString "/a/bar.js"]) demo_loaded)).
Proof.
  assert (H : rejected (Fn fooMatcher) (VString "/a/bar.js") demo_loaded
                (@set_user demo_host 1%nat
                   (emit (CallMatcher [VString "/a/bar.js"]) demo_loaded))).
  { right. exists "/a/bar.js", (VBool false). repeat split. }
  split; [exact H |].
  apply (@replacement_delegates_when_rejected demo_host (Fn fooMatcher)
           (Fn logTransformer) VUndefined (VString "x=1") (VString "/a/bar.js")
           demo_loaded _ H).
Defined.

Lemma second_hookCreateScript_overwrites_witness :
  rejected (Fn fooMatcher) (VNumber 5)
    (final (hookCreateScript (Fn fooMatcher) (Fn otherTransformer) None demo_loaded))
    (final (hookCreateScript (Fn fooMatcher) (Fn otherTransformer) None demo_loaded))
  /\ (hookCreateScript (Fn fooMatcher) (Fn logTransformer) None ;;
      hookCreateScript (Fn fooMatcher) (Fn otherTransformer) None ;;
      vm_createScript_call (VString "x=1") (VNumber 5)) demo_loaded =
     originalCreateScript (VString "x=1") (VNumber 5)
       (final (hookCreateScript (Fn fooMatcher) (Fn otherTransformer) None
                 demo_loaded)).
Proof.
  assert (H : rejected (Fn fooMatcher) (VNumber 5)
                (final (hookCreateScript (Fn fooMatcher) (Fn otherTransformer)
                          None demo_loaded))
                (final (hookCreateScript (Fn fooMatcher) (Fn otherTransformer)
                          None demo_loaded))).
  { left. split; reflexivity. }
  split; [exact H |].
  apply (@second_hookCreateScript_overwrites demo_host (Fn fooMatcher)
           (Fn logTransformer) None (Fn fooMatcher) (Fn otherTransformer) None
           demo_loaded (VString "x=1") (VNumber 5)).
  exact H.
Defined.

Lemma unloadRequireCache_evicts_exactly_matched_witness :
  exists s',
    unloadRequireCache (Fn fooMatcher) demo_loaded = (Normal tt, s')
    /\ cache_of s' = Some [("/a/bar.js", VString "bar")].
Proof.
  destruct (proj1 (@unloadRequireCache_evicts_exactly_matched demo_host
                     fooMatcher (fun k => VBool (ends_with "foo.js" k))
                     demo_loaded demo_cache
                     (fun k u _ => ex_intro _ (S u) eq_refl))
              eq_refl)
    as (s' & Hrun & Hcache & _).
  exists s'. split; [exact Hrun | exact Hcache].
Defined.

Lemma unloadRequireCache_falsy_matcher_witness :
  truthy VNull = false
  /\ unloadRequireCache (Val VNull) demo_loaded = (Normal tt, demo_loaded).
Proof.
  split; [reflexivity |].
  apply (@unloadRequireCache_falsy_matcher demo_host VNull demo_loaded).
  reflexivity.
Defined.

Lemma matcher_exception_propagates_witness :
  throwingMatcher [VString (@path_resolve demo_host "/a/foo.js")] 0%nat =
    (Throw (VError "Error" "no" "Error: no at matcher"), 1%nat)
  /\ createScript_replacement (Fn throwingMatcher) (Fn logTransformer) VUndefined
       (VString "x=1") (VString "/a/foo.js") demo_loaded =
     (Throw (VError "Error" "no" "Error: no at matcher"),
      @set_user demo_host 1%nat
        (emit (CallMatcher [VString "/a/foo.js"]) demo_loaded)).
Proof.
  split; [reflexivity |].
  apply (proj1 (@matcher_exception_propagates demo_host throwingMatcher
                  (Fn logTransformer) VUndefined (VString "x=1") "/a/foo.js"
                  demo_loaded (VError "Error" "no" "Error: no at matcher")
                  1%nat VNull)).
  reflexivity.
Defined.

Lemma replacement_falls_back_to_original_code_witness :
  boomTransformer [VString "x=1"; VString "/a/foo.js"] 1%nat =
    (Throw (VError "Error" "boom" "Error: boom at transformer"), 2%nat)
  /\ createScript_replacement (Fn fooMatcher) (Fn boomTransformer) VUndefined
       (VString "x=1") (VString "/a/foo.js") demo_loaded =
     originalCreateScript (VString "x=1") (VString "/a/foo.js")
       (log_diagnostic (VString "/a/foo.js")
          (VError "Error" "boom" "Error: boom at transformer")
          (@set_user demo_host 2%nat
             (emit (CallTransformer [VString "x=1"; VString "/a/foo.js"])
                (@set_user demo_host 1%nat
                   (emit (CallMatcher [VString "/a/foo.js"]) demo_loaded))))).
Proof.
  split; [reflexivity |].
  apply (@replacement_falls_back_to_original_code demo_host fooMatcher
           boomTransformer VUndefined (VString "x=1") "/a/foo.js" demo_loaded
           (VBool true) 1%nat
           (VError "Error" "boom" "Error: boom at transformer") 2%nat);
    reflexivity.
Defined.


Lemma postLoadHook_result_ignored_exception_propagates_witness :
  throwingPostLoadHook [VString "/a/foo.js"] 1%nat =
    (Throw (VError "Error" "late" "Error: late at hook"), 2%nat)
  /\ outcome (requireHook
                (installed_hook (Fn fooMatcher) (Fn logTransformer)
                   (Some throwing_postLoad_options))
                (VString "x=1") "/a/foo.js" demo_loaded) =
     Throw (VError "Error" "late" "Error: late at hook").
Proof.
  split; [reflexivity |].
  rewrite (proj2 (@postLoadHook_result_ignored_exception_propagates demo_host
                    (installed_hook (Fn fooMatcher) (Fn logTransformer)
                       (Some throwing_postLoad_options))
                    throwingPostLoadHook (VString "x=1") "/a/foo.js" demo_loaded
                    (@set_user demo_host 1%nat
                       (emit (CallTransformer [VString "x=1"; VString "/a/foo.js"])
                          demo_loaded))
                    {| code := VString "LOG();x=1"; changed := true |}
                    2%nat VUndefined
                    (VError "Error" "late" "Error: late at hook")
                    eq_refl eq_refl) eq_refl).
  reflexivity.
Defined.

Lemma unloadRequireCache_visits_each_key_once_witness :
  trace (final (unloadRequireCache (Fn fooMatcher) demo_loaded)) =
    [CallMatcher [VString "/a/foo.js"]; CallMatcher [VString "/a/bar.js"];
     CallMatcher [VString "/b/foo.js"]].
Proof.
  apply (@unloadRequireCache_visits_each_key_once demo_host fooMatcher
           (fun k => VBool (ends_with "foo.js" k)) demo_loaded demo_cache
           (fun k u _ => ex_intro _ (S u) eq_refl) eq_refl).
Defined.

Lemma unloadRequireCache_idempotent_witness :
  cache_of (final ((unloadRequireCache (Fn fooMatcher) ;;
                    unloadRequireCache (Fn fooMatcher)) demo_loaded)) =
    Some [("/a/bar.js", VString "bar")].
Proof.
  rewrite (proj2 (@unloadRequireCache_idempotent demo_host fooMatcher
                    (fun k => VBool (ends_with "foo.js" k)) demo_loaded demo_cache
                    (fun k u _ => ex_intro _ (S u) eq_refl) eq_refl)).
  reflexivity.
Defined.

Lemma unloadRequireCache_matcher_throws_witness :
  map fst demo_cache = (["/a/foo.js"] ++ "/a/bar.js" :: ["/b/foo.js"])%list
  /\ outcome (unloadRequireCache (Fn barFailsMatcher) demo_loaded) =
       Throw (VError "Error" "no" "Error: no at matcher")
  /\ cache_of (final (unloadRequireCache (Fn barFailsMatcher) demo_loaded)) =
       Some [("/a/bar.js", VString "bar"); ("/b/foo.js", VString "foo2")].
Proof.
  split; [reflexivity |].
  destruct (@unloadRequireCache_matcher_throws demo_host barFailsMatcher
              (fun k => VBool (ends_with "foo.js" k)) demo_loaded demo_cache
              ["/a/foo.js"] "/a/bar.js" ["/b/foo.js"]
              (VError "Error" "no" "Error: no at matcher")
              eq_refl eq_refl
              (fun k0 u H =>
                 match H with
                 | or_introl E =>
                     match E in (_ = y)
                       return exists u', barFailsMatcher [VString y] u =
                                (Normal (VBool (ends_with "foo.js" y)), u')
                     with
                     | eq_refl => ex_intro _ (S u) eq_refl
                     end
                 | or_intror F => match F with end
                 end)
              (fun u => ex_intro _ (S u) eq_refl))
    as (Ho & Hc & _).
  split; [exact Ho | exact Hc].
Defined.

Lemma unloadRequireCache_matcher_not_callable_witness :
  truthy (VBool true) = true
  /\ unloadRequireCache (Val (VBool true)) demo_loaded =
     (Throw (@TypeError demo_host "matcher is not a function"), demo_loaded).
Proof.
  split; [reflexivity |].
  apply (proj2 (@unloadRequireCache_matcher_not_callable demo_host (VBool true)
                  demo_loaded "/a/foo.js" (VString "foo")
                  [("/a/bar.js", VString "bar"); ("/b/foo.js", VString "foo2")]
                  eq_refl)).
  reflexivity.
Defined.

Lemma load_other_extension_is_not_hooked_witness :
  trace (final ((hookRequire (Fn fooMatcher) (Fn logTransformer) None ;;
                 load "/a/foo.ts" (VString "x=1")) demo_loaded)) =
    [Compile (VString "x=1") "/a/foo.ts"].
Proof.
  apply (@load_other_extension_is_not_hooked demo_host (Fn fooMatcher)
           (Fn logTransformer) None "/a/foo.ts" (VString "x=1")
           (RequireFn (Some demo_cache)) 0%nat).
  reflexivity.
Defined.

Lemma load_matched_compiles_transformed_code_witness :
  trace (final ((hookRequire (Fn fooMatcher) (Fn logTransformer)
                   (Some postLoad_options) ;;
                 load "/a/foo.js" (VString "x=1")) demo_loaded)) =
    [CallMatcher [VString "/a/foo.js"];
     CallTransformer [VString "x=1"; VString "/a/foo.js"];
     CallPostLoadHook [VString "/a/foo.js"];
     Compile (VString "LOG();x=1") "/a/foo.js"].
Proof.
  apply (@load_matched_compiles_transformed_code demo_host fooMatcher
           logTransformer countingPostLoadHook postLoad_options "/a/foo.js"
           (VString "x=1") (RequireFn (Some demo_cache)) 0%nat
           (VBool true) 1%nat "LOG();x=1" 2%nat VUndefined 3%nat);
    reflexivity.
Defined.
